(** * Password-reset tokens of the exchange API (exchange_api/api/views.py)

    A shallow embedding of [PasswordResetRequest] and [PasswordResetConfirm]:
    the stateless token scheme ([generate_token], [check_token]) and the two
    HTTP handlers that call it.  Python values are modelled as follows.

    - [str] is a list of Unicode code points ([pystr]); [len] is the list
      length and [==] is equality of the lists.
    - [bytes] is a list of integers in [0, 255].
    - [int] is [Z]; [%] with the positive divisor 3600 is [Z.modulo].
    - a raised exception is the [Raise] outcome of [result]; [try]/[except]
      is a match on that outcome.
    - [hashlib.sha256] is the FIPS 180-4 function on 32-bit words held in [Z],
      every addition reduced modulo [2^32]. *)

From Stdlib Require Import ZArith NArith Lia List Ascii String.
From stdpp Require Import base tactics option list strings pretty gmap.

Local Open Scope Z_scope.

(* ------------------------------------------------------------------ *)
(** ** Exceptions and outcomes *)

(** The exception classes that the views can meet.  [UnicodeEncodeError] and
    [UnicodeDecodeError] are subclasses of [ValueError] in Python. *)
Inductive exn : Type :=
  | TypeError
  | ValueError
  | OverflowError
  | UnicodeEncodeError
  | UnicodeDecodeError
  | DoesNotExist
  | MultipleObjectsReturned
  | OtherException (name : string).

Inductive result (A : Type) : Type :=
  | Ok (a : A)
  | Raise (e : exn).
Arguments Ok {A} a.
Arguments Raise {A} e.

(** Sequencing: the first exception raised ends the computation.  The
    notation [x ← r; k] below is this [mbind]. *)
Global Instance result_bind : MBind result := fun A B k r =>
  match r with
  | Ok a => k a
  | Raise e => Raise e
  end.

(* ------------------------------------------------------------------ *)
(** ** Strings and their UTF-8 encoding *)

Definition codepoint := N.
Definition pystr := list codepoint.
Definition bytes := list Z.

(** A literal of the source, as the code points of its characters. *)
Fixpoint py (s : string) : pystr :=
  match s with
  | EmptyString => []
  | String c s' => N_of_ascii c :: py s'
  end.

Definition pystr_eqb (a b : pystr) : bool := bool_decide (a = b).

(** [str.encode()] of one code point, strict error handler: surrogates
    (and numbers that are no code point at all) are refused. *)
Definition encode_codepoint (c : codepoint) : result bytes :=
  let z := Z.of_N c in
  if z <? 0x80 then Ok [z]
  else if z <? 0x800 then
    Ok [Z.lor 0xC0 (Z.shiftr z 6); Z.lor 0x80 (Z.land z 0x3F)]
  else if (0xD800 <=? z) && (z <=? 0xDFFF) then Raise UnicodeEncodeError
  else if z <? 0x10000 then
    Ok [Z.lor 0xE0 (Z.shiftr z 12);
        Z.lor 0x80 (Z.land (Z.shiftr z 6) 0x3F);
        Z.lor 0x80 (Z.land z 0x3F)]
  else if z <? 0x110000 then
    Ok [Z.lor 0xF0 (Z.shiftr z 18);
        Z.lor 0x80 (Z.land (Z.shiftr z 12) 0x3F);
        Z.lor 0x80 (Z.land (Z.shiftr z 6) 0x3F);
        Z.lor 0x80 (Z.land z 0x3F)]
  else Raise UnicodeEncodeError.

Fixpoint encode (s : pystr) : result bytes :=
  match s with
  | [] => Ok []
  | c :: s' =>
      b ← encode_codepoint c;
      bs ← encode s';
      Ok (b ++ bs)
  end.

(** [str(n)] for an [int], as used by the f-string fields. *)
Definition str_of_int (n : Z) : pystr := py (pretty n).

(* ------------------------------------------------------------------ *)
(** ** SHA-256 (hashlib.sha256) *)

Module SHA256.

Definition modulus : Z := 2 ^ 32.
Definition add32 (x y : Z) : Z := (x + y) mod modulus.
Definition rotr (n x : Z) : Z :=
  Z.lor (Z.shiftr x n) ((Z.shiftl x (32 - n)) mod modulus).
Definition not32 (x : Z) : Z := Z.lxor x 0xFFFFFFFF.

Definition ch (x y z : Z) : Z :=
  Z.lxor (Z.land x y) (Z.land (not32 x) z).
Definition maj (x y z : Z) : Z :=
  Z.lxor (Z.lxor (Z.land x y) (Z.land x z)) (Z.land y z).
Definition bsig0 (x : Z) : Z :=
  Z.lxor (Z.lxor (rotr 2 x) (rotr 13 x)) (rotr 22 x).
Definition bsig1 (x : Z) : Z :=
  Z.lxor (Z.lxor (rotr 6 x) (rotr 11 x)) (rotr 25 x).
Definition ssig0 (x : Z) : Z :=
  Z.lxor (Z.lxor (rotr 7 x) (rotr 18 x)) (Z.shiftr x 3).
Definition ssig1 (x : Z) : Z :=
  Z.lxor (Z.lxor (rotr 17 x) (rotr 19 x)) (Z.shiftr x 10).

Definition round_constants : list Z :=
  [ 0x428A2F98 ; 0x71374491 ; 0xB5C0FBCF ; 0xE9B5DBA5
  ; 0x3956C25B ; 0x59F111F1 ; 0x923F82A4 ; 0xAB1C5ED5
  ; 0xD807AA98 ; 0x12835B01 ; 0x243185BE ; 0x550C7DC3
  ; 0x72BE5D74 ; 0x80DEB1FE ; 0x9BDC06A7 ; 0xC19BF174
  ; 0xE49B69C1 ; 0xEFBE4786 ; 0x0FC19DC6 ; 0x240CA1CC
  ; 0x2DE92C6F ; 0x4A7484AA ; 0x5CB0A9DC ; 0x76F988DA
  ; 0x983E5152 ; 0xA831C66D ; 0xB00327C8 ; 0xBF597FC7
  ; 0xC6E00BF3 ; 0xD5A79147 ; 0x06CA6351 ; 0x14292967
  ; 0x27B70A85 ; 0x2E1B2138 ; 0x4D2C6DFC ; 0x53380D13
  ; 0x650A7354 ; 0x766A0ABB ; 0x81C2C92E ; 0x92722C85
  ; 0xA2BFE8A1 ; 0xA81A664B ; 0xC24B8B70 ; 0xC76C51A3
  ; 0xD192E819 ; 0xD6990624 ; 0xF40E3585 ; 0x106AA070
  ; 0x19A4C116 ; 0x1E376C08 ; 0x2748774C ; 0x34B0BCB5
  ; 0x391C0CB3 ; 0x4ED8AA4A ; 0x5B9CCA4F ; 0x682E6FF3
  ; 0x748F82EE ; 0x78A5636F ; 0x84C87814 ; 0x8CC70208
  ; 0x90BEFFFA ; 0xA4506CEB ; 0xBEF9A3F7 ; 0xC67178F2 ].

(** The eight working words. *)
Definition state : Type := Z * Z * Z * Z * Z * Z * Z * Z.

Definition initial_state : state :=
  (0x6A09E667, 0xBB67AE85, 0x3C6EF372, 0xA54FF53A,
   0x510E527F, 0x9B05688C, 0x1F83D9AB, 0x5BE0CD19).

(** Padding: the byte 0x80, zero bytes up to 56 modulo 64, then the bit
    length as a 64-bit big-endian number. *)
Definition be_bytes (count : nat) (x : Z) : bytes :=
  map (fun i => (Z.shiftr x (8 * Z.of_nat i)) mod 256) (rev (seq 0 count)).

Definition pad (msg : bytes) : bytes :=
  let len := Z.of_nat (length msg) in
  msg ++ [0x80] ++ repeat 0 (Z.to_nat ((55 - len) mod 64))
      ++ be_bytes 8 (8 * len).

Fixpoint words_of_bytes (bs : bytes) : list Z :=
  match bs with
  | b3 :: b2 :: b1 :: b0 :: rest =>
      (Z.shiftl b3 24 + Z.shiftl b2 16 + Z.shiftl b1 8 + b0)
        :: words_of_bytes rest
  | _ => []
  end.

Fixpoint blocks_of_words (fuel : nat) (ws : list Z) : list (list Z) :=
  match fuel, ws with
  | S fuel', _ :: _ => take 16 ws :: blocks_of_words fuel' (drop 16 ws)
  | _, _ => []
  end.

(** The message schedule, most recent word first. *)
Fixpoint extend_schedule (count : nat) (recent : list Z) : list Z :=
  match count with
  | O => recent
  | S count' =>
      let w := add32 (add32 (add32 (ssig1 (nth 1 recent 0)) (nth 6 recent 0))
                            (ssig0 (nth 14 recent 0))) (nth 15 recent 0) in
      extend_schedule count' (w :: recent)
  end.

Definition schedule (block : list Z) : list Z :=
  rev (extend_schedule 48 (rev block)).

Definition round (s : state) (kw : Z * Z) : state :=
  let '(a, b, c, d, e, f, g, h) := s in
  let '(k, w) := kw in
  let t1 := add32 (add32 (add32 (add32 h (bsig1 e)) (ch e f g)) k) w in
  let t2 := add32 (bsig0 a) (maj a b c) in
  (add32 t1 t2, a, b, c, add32 d t1, e, f, g).

Definition add_state (s t : state) : state :=
  let '(a, b, c, d, e, f, g, h) := s in
  let '(a', b', c', d', e', f', g', h') := t in
  (add32 a a', add32 b b', add32 c c', add32 d d',
   add32 e e', add32 f f', add32 g g', add32 h h').

Definition compress (s : state) (block : list Z) : state :=
  add_state s (fold_left round (combine round_constants (schedule block)) s).

Definition hash (msg : bytes) : state :=
  let ws := words_of_bytes (pad msg) in
  fold_left compress (blocks_of_words (length ws) ws) initial_state.

(** Lower-case hexadecimal digits, as code points. *)
Definition hex_digit (x : Z) : codepoint :=
  Z.to_N (if x <? 10 then 48 + x else 87 + x).

Definition hex_word (x : Z) : pystr :=
  map (fun i => hex_digit ((Z.shiftr x (4 * Z.of_nat i)) mod 16))
      (rev (seq 0 8)).

Definition hexdigest (s : state) : pystr :=
  let '(a, b, c, d, e, f, g, h) := s in
  hex_word a ++ hex_word b ++ hex_word c ++ hex_word d
    ++ hex_word e ++ hex_word f ++ hex_word g ++ hex_word h.

End SHA256.

(** [sha256(data).hexdigest()] *)
Definition sha256_hexdigest (data : bytes) : pystr :=
  SHA256.hexdigest (SHA256.hash data).

(* ------------------------------------------------------------------ *)
(** ** The user record and the token scheme *)

(** The columns of the [users] table that the views read. *)
Record User : Type := mkUser {
  email : pystr;
  id : Z;
  password : pystr
}.

(** f"{user.email}-{user.id}-{user.password}-{t}" *)
Definition token_string (user : User) (t : Z) : pystr :=
  email user ++ py "-" ++ str_of_int (id user) ++ py "-"
    ++ password user ++ py "-" ++ str_of_int t.

(** sha256(token_string.encode()).hexdigest()[:32] *)
Definition digest_token (token_string : pystr) : result pystr :=
  data ← encode token_string;
  Ok (take 32 (sha256_hexdigest data)).

(** [PasswordResetRequest.generate_token].  [clock] is the outcome of
    [int(timezone.now().timestamp())]. *)
Definition generate_token (clock : result Z) (user : User) : result pystr :=
  timestamp ← clock;
  let timestamp_hours := timestamp - (timestamp mod 3600) in
  digest_token (token_string user timestamp_hours).

(** The body of the [for hours in range(24)] loop of [check_token], run over
    the remaining values of [hours]. *)
Fixpoint check_hours (user : User) (token : pystr) (current_time : Z)
    (hours : list Z) : result bool :=
  match hours with
  | [] => Ok false
  | h :: rest =>
      let check_time := current_time - (current_time mod 3600) - (h * 3600) in
      expected_token ← digest_token (token_string user check_time);
      if pystr_eqb token expected_token then Ok true
      else check_hours user token current_time rest
  end.

(** range(n) *)
Definition range (n : nat) : list Z := map Z.of_nat (seq 0 n).

(** The [try] block of [check_token]. *)
Definition check_token_try (clock : result Z) (user : User) (token : pystr)
    : result bool :=
  current_time ← clock;
  check_hours user token current_time (range 24).

(** [PasswordResetConfirm.check_token]: [except Exception: return False]. *)
Definition check_token (clock : result Z) (user : User) (token : pystr) : bool :=
  match check_token_try clock user token with
  | Ok b => b
  | Raise _ => false
  end.

(** The generate operation in the words of the specification: floor the
    time to the hour, build the canonical string, hash it with SHA-256 and
    keep the first 32 characters of the hexadecimal digest. *)
Definition spec_generate (user : User) (now_seconds : Z) : result pystr :=
  let time_bucket := now_seconds - (now_seconds mod 3600) in
  let canonical :=
    email user ++ py "-" ++ str_of_int (id user) ++ py "-"
      ++ password user ++ py "-" ++ str_of_int time_bucket in
  data ← encode canonical;
  let hex := sha256_hexdigest data in
  Ok (take 32 hex).

(** The truncated digest tells two token strings apart: they get the same
    token only when they are the same string. *)
Definition digest_separates (s1 s2 : pystr) : Prop :=
  forall tok, digest_token s1 = Ok tok -> digest_token s2 = Ok tok -> s1 = s2.

(* ------------------------------------------------------------------ *)
(** ** The two views *)

(** What the views use of the request. *)
Record HttpRequest : Type := mkRequest {
  scheme : pystr;
  get_host : pystr;
  data : gmap string pystr;     (* request.data *)
  POST : gmap string pystr      (* request.POST *)
}.

Record EmailMessage : Type := mkEmail {
  subject : pystr;
  message : pystr;
  from_email : pystr;
  recipient_list : list (option pystr)
}.

Inductive value : Type :=
  | VBool (b : bool)
  | VStr (s : pystr).

Inductive HttpResponse : Type :=
  | Response (body : list (string * pystr)) (status : Z)
  | Render (template_name : string) (context : list (string * value)).

(** The collaborators that are not part of views.py: the ORM manager and the
    model methods of [User], the identifier coding of django.utils, the mail
    backend and the settings. *)
Class Django : Type := {
  store : Type;
  mailer : Type;
  objects_get_email : store -> option pystr -> result User;
  objects_get_pk : store -> pystr -> result User;
  set_password : User -> pystr -> result User;
  save : store -> User -> store * result unit;
  urlsafe_base64_encode : bytes -> pystr;
  urlsafe_base64_decode : pystr -> result bytes;
  force_str : bytes -> result pystr;
  send_mail : mailer -> EmailMessage -> mailer * result unit;
  DEFAULT_FROM_EMAIL : pystr
}.

Section Views.
Context `{Django}.

(** The state a request handler can change. *)
Record world : Type := mkWorld {
  db : store;
  mail : mailer
}.

(** A handler step: it may change the world and may raise. *)
Definition view (A : Type) : Type := world -> world * result A.

Definition view_bind {A B : Type} (m : view A) (k : A -> view B) : view B :=
  fun w =>
    match m w with
    | (w', Ok a) => k a w'
    | (w', Raise e) => (w', Raise e)
    end.

Definition ret {A : Type} (a : A) : view A := fun w => (w, Ok a).
Definition lift {A : Type} (r : result A) : view A := fun w => (w, r).
Definition query {A : Type} (q : store -> result A) : view A :=
  fun w => (w, q (db w)).
Definition do_save (user : User) : view unit :=
  fun w => let '(s, r) := save (db w) user in (mkWorld s (mail w), r).
Definition do_send_mail (m : EmailMessage) : view unit :=
  fun w => let '(b, r) := send_mail (mail w) m in (mkWorld (db w) b, r).

(** force_bytes(user.pk): the decimal digits of the primary key. *)
Definition force_bytes (pk : Z) : bytes := map Z.of_N (str_of_int pk).

(** 'Запрос на сброс пароля' *)
Definition reset_subject : pystr :=
  [1047; 1072; 1087; 1088; 1086; 1089; 32; 1085; 1072; 32; 1089; 1073;
   1088; 1086; 1089; 32; 1087; 1072; 1088; 1086; 1083; 1103]%N.

(** 'Для сброса пароля перейдите по ссылке: ' *)
Definition reset_message_prefix : pystr :=
  [1044; 1083; 1103; 32; 1089; 1073; 1088; 1086; 1089; 1072; 32; 1087;
   1072; 1088; 1086; 1083; 1103; 32; 1087; 1077; 1088; 1077; 1081; 1076;
   1080; 1090; 1077; 32; 1087; 1086; 32; 1089; 1089; 1099; 1083; 1082;
   1077; 58; 32]%N.

(** 'Пароль должен содержать не менее 8 символов' *)
Definition short_password_error : pystr :=
  [1055; 1072; 1088; 1086; 1083; 1100; 32; 1076; 1086; 1083; 1078; 1077;
   1085; 32; 1089; 1086; 1076; 1077; 1088; 1078; 1072; 1090; 1100; 32;
   1085; 1077; 32; 1084; 1077; 1085; 1077; 1077; 32; 56; 32; 1089; 1080;
   1084; 1074; 1086; 1083; 1086; 1074]%N.

(** f"{request.scheme}://{request.get_host()}/api/v1/reset-password/{uid}/{token}" *)
Definition reset_url (request : HttpRequest) (uid token : pystr) : pystr :=
  scheme request ++ py "://" ++ get_host request
    ++ py "/api/v1/reset-password/" ++ uid ++ py "/" ++ token.

(** The [try] block of [PasswordResetRequest.post]. *)
Definition reset_request_try (clock : result Z) (request : HttpRequest)
    : view HttpResponse :=
  let email := data request !! "email" in
  view_bind (query (fun s => objects_get_email s email)) (fun user =>
  view_bind (lift (generate_token clock user)) (fun token =>
  let uid := urlsafe_base64_encode (force_bytes (id user)) in
  let reset_url := reset_url request uid token in
  view_bind (do_send_mail
               (mkEmail reset_subject (reset_message_prefix ++ reset_url)
                        DEFAULT_FROM_EMAIL [email])) (fun _ =>
  ret (Response [("message", py "Password reset link sent")] 200)))).

(** [PasswordResetRequest.post]: [except User.DoesNotExist]. *)
Definition reset_request_post (clock : result Z) (request : HttpRequest)
    : view HttpResponse :=
  fun w =>
    match reset_request_try clock request w with
    | (w', Raise DoesNotExist) =>
        (w', Ok (Response [("error", py "User not found")] 404))
    | other => other
    end.

Definition template_name : string := "password_reset_confirm.html".

(** Python truth value of [request.POST.get(...)]: [None] and the empty
    string are false. *)
Definition truthy (v : option pystr) : bool :=
  match v with
  | Some (_ :: _) => true
  | _ => false
  end.

(** len(password1) *)
Definition len (v : option pystr) : Z :=
  match v with
  | Some s => Z.of_nat (length s)
  | None => 0
  end.

Definition form_error (msg : pystr) (uidb64 token : pystr) : HttpResponse :=
  Render template_name
    [("validlink", VBool true); ("error", VStr msg);
     ("token", VStr token); ("uidb64", VStr uidb64)].

Definition invalid_link : HttpResponse :=
  Render template_name [("validlink", VBool false)].

(** The [try] block of [PasswordResetConfirm.post]; [None] when the block
    ends without a [return]. *)
Definition reset_confirm_try (clock : result Z) (request : HttpRequest)
    (uidb64 token : pystr) : view (option HttpResponse) :=
  view_bind (lift (raw ← urlsafe_base64_decode uidb64; force_str raw))
    (fun uid =>
  view_bind (query (fun s => objects_get_pk s uid)) (fun user =>
  if check_token clock user token then
    let password1 := POST request !! "new_password1" in
    let password2 := POST request !! "new_password2" in
    if negb (truthy password1) || negb (truthy password2) then
      ret (Some (form_error (py "Please enter both passwords") uidb64 token))
    else if negb (bool_decide (password1 = password2)) then
      ret (Some (form_error (py "Passwords do not match") uidb64 token))
    else if len password1 <? 8 then
      ret (Some (form_error short_password_error uidb64 token))
    else
      view_bind (lift (set_password user (default [] password1)))
        (fun user' =>
      view_bind (do_save user') (fun _ =>
      ret (Some (Render template_name
                   [("validlink", VBool true); ("success", VBool true)]))))
  else ret None)).

(** except (TypeError, ValueError, OverflowError, User.DoesNotExist) *)
Definition caught_by_confirm (e : exn) : bool :=
  match e with
  | TypeError | ValueError | OverflowError | DoesNotExist
  | UnicodeEncodeError | UnicodeDecodeError => true
  | MultipleObjectsReturned | OtherException _ => false
  end.

(** [PasswordResetConfirm.post] *)
Definition reset_confirm_post (clock : result Z) (request : HttpRequest)
    (uidb64 token : pystr) : view HttpResponse :=
  fun w =>
    match reset_confirm_try clock request uidb64 token w with
    | (w', Ok (Some response)) => (w', Ok response)
    | (w', Ok None) => (w', Ok invalid_link)
    | (w', Raise e) =>
        if caught_by_confirm e then (w', Ok invalid_link)
        else (w', Raise e)
    end.

End Views.

(** An in-memory stand-in for the collaborators, to run the views on
    concrete requests: the table is a list of rows, the outbox a list of
    messages, an identifier travels as the decimal digits of the key, and a
    password is stored behind a fixed prefix. *)
Definition in_memory : Django := {|
  store := list User;
  mailer := list EmailMessage;
  objects_get_email := fun rows e =>
    match List.filter (fun u => bool_decide (Some (email u) = e)) rows with
    | [] => Raise DoesNotExist
    | [u] => Ok u
    | _ => Raise MultipleObjectsReturned
    end;
  objects_get_pk := fun rows uid =>
    match List.filter (fun u => bool_decide (str_of_int (id u) = uid)) rows with
    | [] => Raise DoesNotExist
    | [u] => Ok u
    | _ => Raise MultipleObjectsReturned
    end;
  set_password := fun u raw => Ok (mkUser (email u) (id u) (py "plain$" ++ raw));
  save := fun rows u =>
    (map (fun v => if bool_decide (id v = id u) then u else v) rows, Ok tt);
  urlsafe_base64_encode := map Z.to_N;
  urlsafe_base64_decode := fun s => Ok (map Z.of_N s);
  force_str := fun b => Ok (map Z.to_N b);
  send_mail := fun box m => (box ++ [m], Ok tt);
  DEFAULT_FROM_EMAIL := py "noreply@example.com"
|}.

(** Concrete requests against the stand-in. *)
Module Run.

#[local] Existing Instance in_memory.

Definition alice : User := mkUser (py "a@b.com") 7 (py "h1").
Definition world_of (rows : list User) (box : list EmailMessage) : world :=
  mkWorld rows box.
Definition start : world := world_of [alice] [].
Definition T : Z := 1735689600.
Definition X : pystr := py "def551ddb040b1737021642a5ec4a3ac".

Definition ask (address : string) : HttpRequest :=
  mkRequest (py "https") (py "example.com") {[ "email" := py address ]} ∅.

Definition submit (p1 p2 : string) : HttpRequest :=
  mkRequest (py "https") (py "example.com") ∅
    {[ "new_password1" := py p1; "new_password2" := py p2 ]}.

End Run.

(* ------------------------------------------------------------------ *)
(** ** Vocabulary of the proofs *)

Definition is_digit (c : codepoint) : Prop := (48 <= c <= 57)%N.
Definition is_ascii (c : codepoint) : Prop := (c < 128)%N.

(** The part of the token string that does not depend on the time. *)
Definition token_prefix (user : User) : pystr :=
  email user ++ py "-" ++ str_of_int (id user) ++ py "-"
    ++ password user ++ py "-".

(** The hour bucket of a time: the time less its remainder modulo 3600. *)
Definition bucket (t : Z) : Z := t - t mod 3600.

(** A 32-bit word, and a digest state made of such words. *)
Definition word32 (x : Z) : Prop := 0 <= x < 2 ^ 32.

Definition words32 (s : SHA256.state) : Prop :=
  let '(a, b, c, d, e, f, g, h) := s in
  word32 a /\ word32 b /\ word32 c /\ word32 d /\
  word32 e /\ word32 f /\ word32 g /\ word32 h.

(** The first four words of the digest as one number. *)
Definition prefix128 (s : SHA256.state) : Z :=
  let '(a, b, c, d, _, _, _, _) := s in
  ((a * 2 ^ 32 + b) * 2 ^ 32 + c) * 2 ^ 32 + d.

(* ------------------------------------------------------------------ *)
(** ** The other views *)

(** Further vocabulary: the characters of a token, and the code points that
    [encode] accepts (every code point but the surrogates). *)
Definition is_hex_digit (c : codepoint) : Prop :=
  (48 <= c <= 57 \/ 97 <= c <= 102)%N.
Definition scalar (c : codepoint) : Prop :=
  (c < 0xD800 \/ 0xDFFF < c < 0x110000)%N.

Section ConfirmGet.
Context `{Django}.

Definition valid_form (uidb64 token : pystr) : HttpResponse :=
  Render template_name
    [("validlink", VBool true); ("uidb64", VStr uidb64); ("token", VStr token)].

(** The [try] block of [PasswordResetConfirm.get]; [None] when the block
    ends without a [return]. *)
Definition reset_confirm_get_try (clock : result Z) (request : HttpRequest)
    (uidb64 token : pystr) : view (option HttpResponse) :=
  view_bind (lift (raw ← urlsafe_base64_decode uidb64; force_str raw))
    (fun uid =>
  view_bind (query (fun s => objects_get_pk s uid)) (fun user =>
  if check_token clock user token then ret (Some (valid_form uidb64 token))
  else ret None)).

(** [PasswordResetConfirm.get] *)
Definition reset_confirm_get (clock : result Z) (request : HttpRequest)
    (uidb64 token : pystr) : view HttpResponse :=
  fun w =>
    match reset_confirm_get_try clock request uidb64 token w with
    | (w', Ok (Some response)) => (w', Ok response)
    | (w', Ok None) => (w', Ok invalid_link)
    | (w', Raise e) =>
        if caught_by_confirm e then (w', Ok invalid_link)
        else (w', Raise e)
    end.

End ConfirmGet.

(** What [UserAuthentication] uses beyond the above: the lookup by name and
    django.contrib.auth.hashers.check_password. *)
Class Accounts `{Django} : Type := {
  objects_get_name : store -> option pystr -> result User;
  check_password : option pystr -> pystr -> result bool
}.

Section Authentication.
Context `{Accounts}.

(** The [try] block of [UserAuthentication.post]. *)
Definition authentication_try (request : HttpRequest) : view HttpResponse :=
  let username := data request !! "username" in
  let password_ := data request !! "password" in
  view_bind (query (fun s => objects_get_name s username)) (fun user =>
  view_bind (lift (check_password password_ (password user))) (fun ok =>
  if ok then ret (Response [("message", py "Authentication successful")] 200)
  else ret (Response [("error", py "Invalid password")] 400))).

(** [UserAuthentication.post]: [except User.DoesNotExist]. *)
Definition authentication_post (request : HttpRequest) : view HttpResponse :=
  fun w =>
    match authentication_try request w with
    | (w', Raise DoesNotExist) =>
        (w', Ok (Response [("error", py "User not found")] 404))
    | other => other
    end.

End Authentication.

(** What [EventList.delete] uses: the manager and the delete method of the
    [Event] model.  Here [DoesNotExist] is the class of that model. *)
Class Events : Type := {
  key : Type;
  Event : Type;
  event_table : Type;
  event_objects_get : event_table -> option key -> result Event;
  event_delete : event_table -> Event -> event_table * result unit
}.

Section EventViews.
Context `{Events}.

(** The [try] block of [EventList.delete]; [event_id] is kwargs.get('pk'). *)
Definition event_list_delete_try (event_id : option key) (t : event_table)
    : event_table * result HttpResponse :=
  match event_objects_get t event_id with
  | Ok event =>
      match event_delete t event with
      | (t', Ok _) => (t', Ok (Response [] 204))
      | (t', Raise e) => (t', Raise e)
      end
  | Raise e => (t, Raise e)
  end.

(** [EventList.delete]: [except Event.DoesNotExist], then [except Exception]. *)
Definition event_list_delete (event_id : option key) (t : event_table)
    : event_table * result HttpResponse :=
  match event_list_delete_try event_id t with
  | (t', Raise DoesNotExist) =>
      (t', Ok (Response [("error", py "Event not found")] 404))
  | (t', Raise _) =>
      (t', Ok (Response [("error", py "Failed to delete event")] 500))
  | other => other
  end.

End EventViews.

(* ------------------------------------------------------------------ *)
(** * Properties *)

(** ** Test vectors for the hash and the encoding *)

Example sha256_empty :
  sha256_hexdigest [] =
  py "e3b0c44298fc1c149afbf4c8996fb92427ae41e4649b934ca495991b7852b855".
Proof. vm_compute. reflexivity. Qed.

Example sha256_abc :
  (data ← encode (py "abc"); Ok (sha256_hexdigest data)) =
  Ok (py "ba7816bf8f01cfea414140de5dae2223b00361a396177a9cb410ff61f20015ad").
Proof. vm_compute. reflexivity. Qed.

Example sha256_two_blocks :
  (data ← encode (py "abcdbcdecdefdefgefghfghighijhijkijkljklmklmnlmnomnopnopq");
   Ok (sha256_hexdigest data)) =
  Ok (py "248d6a61d20638b8e5c026930c3e6039a33ce45964ff2167f6ecedd419db06c1").
Proof. vm_compute. reflexivity. Qed.

(** 64 bytes: the padding takes a block of its own. *)
Example sha256_full_block :
  sha256_hexdigest (repeat 97 64) =
  py "ffe054fe7ae0cb6dc65c3af9b61d5209f439851db43d0ba5997337df154668eb".
Proof. vm_compute. reflexivity. Qed.

(** U+00E9, U+20AC, U+1F600: two, three and four bytes. *)
Example sha256_non_ascii :
  (data ← encode [233; 8364; 128512]%N; Ok (sha256_hexdigest data)) =
  Ok (py "df9226927fd572c1ee66eec85de1bb139497614899f36e4e90474cb71f6ef9d0").
Proof. vm_compute. reflexivity. Qed.

Example encode_surrogate : encode [97; 0xD800]%N = Raise UnicodeEncodeError.
Proof. reflexivity. Qed.

Example generate_token_example :
  generate_token (Ok 1735689600) (mkUser (py "a@b.com") 7 (py "h1")) =
  Ok (py "def551ddb040b1737021642a5ec4a3ac").
Proof. vm_compute. reflexivity. Qed.

(* ------------------------------------------------------------------ *)
(** ** Decimal fields and the encoding of a token string *)

Lemma py_app (a b : string) : py (a +:+ b) = py a ++ py b.
Proof. induction a as [|c a IH]; simpl; [reflexivity | now rewrite IH]. Qed.

Lemma py_inj (a b : string) : py a = py b -> a = b.
Proof.
  revert b. induction a as [|c a IH]; intros [|d b]; simpl; try discriminate.
  - reflexivity.
  - intros [= Hc Hs]. f_equal; [|now apply IH].
    rewrite <- (ascii_N_embedding c), <- (ascii_N_embedding d). now rewrite Hc.
Qed.

Lemma pretty_N_char_digit (x : N) : is_digit (N_of_ascii (pretty_N_char x)).
Proof. unfold pretty_N_char, is_digit. repeat case_match; simpl; lia. Qed.

Lemma pretty_N_go_digits (x : N) (s : string) :
  Forall is_digit (py s) -> Forall is_digit (py (pretty_N_go x s)).
Proof.
  revert s. induction (N.lt_wf_0 x) as [x _ IH]. intros s Hs.
  destruct (decide (x = 0)%N) as [->|Hx].
  - now rewrite pretty_N_go_0.
  - rewrite pretty_N_go_step by lia. apply IH.
    + apply N.div_lt; lia.
    + simpl. constructor; [apply pretty_N_char_digit | exact Hs].
Qed.

Lemma pretty_N_digits (x : N) : Forall is_digit (py (pretty x)).
Proof.
  unfold pretty, pretty_N. case_decide.
  - simpl. repeat constructor; unfold is_digit; lia.
  - apply pretty_N_go_digits. constructor.
Qed.

(** The decimal form of a number that is not negative has digits only. *)
Lemma str_of_int_digits (n : Z) : 0 <= n -> Forall is_digit (str_of_int n).
Proof.
  intros Hn. unfold str_of_int. destruct n as [|p|p]; [| |lia].
  - simpl. repeat constructor; unfold is_digit; lia.
  - apply (pretty_N_digits (Npos p)).
Qed.

Lemma str_of_int_ascii (n : Z) : Forall is_ascii (str_of_int n).
Proof.
  assert (Hd : forall s, Forall is_digit s -> Forall is_ascii s).
  { intros s Hs. eapply Forall_impl; [exact Hs|].
    unfold is_digit, is_ascii. lia. }
  unfold str_of_int. destruct n as [|p|p].
  - apply Hd, (str_of_int_digits 0). lia.
  - apply Hd, (str_of_int_digits (Zpos p)). lia.
  - change (pretty (Zneg p)) with ("-" +:+ pretty (Npos p)).
    rewrite py_app. apply Forall_app. split.
    + constructor; [unfold is_ascii; simpl; lia | constructor].
    + apply Hd, pretty_N_digits.
Qed.

Lemma str_of_int_inj (m n : Z) : str_of_int m = str_of_int n -> m = n.
Proof. intros Heq. apply py_inj in Heq. now apply (inj pretty). Qed.

Lemma encode_app (a b : pystr) :
  encode (a ++ b) = (x ← encode a; y ← encode b; Ok (x ++ y)).
Proof.
  induction a as [|c a IH]; simpl.
  - now destruct (encode b).
  - destruct (encode_codepoint c) as [bc|e]; simpl; [|reflexivity].
    rewrite IH. destruct (encode a) as [ba|e]; simpl; [|reflexivity].
    destruct (encode b) as [bb|e]; simpl; [|reflexivity].
    now rewrite app_assoc.
Qed.

Lemma encode_ascii (s : pystr) :
  Forall is_ascii s -> encode s = Ok (map Z.of_N s).
Proof.
  induction 1 as [|c s Hc _ IH]; simpl; [reflexivity|].
  unfold encode_codepoint.
  destruct (Z.ltb_spec (Z.of_N c) 128) as [_|Hge];
    [|unfold is_ascii in Hc; lia].
  simpl. now rewrite IH.
Qed.

Lemma token_string_prefix (user : User) (t : Z) :
  token_string user t = token_prefix user ++ str_of_int t.
Proof. unfold token_string, token_prefix. now rewrite <- !app_assoc. Qed.

Lemma encode_token_string (user : User) (t : Z) :
  encode (token_string user t) =
  (pre ← encode (token_prefix user); Ok (pre ++ map Z.of_N (str_of_int t))).
Proof.
  rewrite token_string_prefix, encode_app.
  now rewrite (encode_ascii (str_of_int t)) by apply str_of_int_ascii.
Qed.

(** Whether the hashing step raises does not depend on the time field. *)
Lemma digest_token_raise (user : User) (t t' : Z) (e : exn) :
  digest_token (token_string user t) = Raise e ->
  digest_token (token_string user t') = Raise e.
Proof.
  unfold digest_token. rewrite !encode_token_string.
  destruct (encode (token_prefix user)); simpl; [discriminate | tauto].
Qed.

Lemma pystr_eqb_true (a b : pystr) : pystr_eqb a b = true <-> a = b.
Proof. unfold pystr_eqb. apply bool_decide_eq_true. Qed.

(* ------------------------------------------------------------------ *)
(** ** The loop of check_token *)

Lemma bucket_div (t : Z) : bucket t = 3600 * (t / 3600).
Proof. unfold bucket. rewrite Z.mod_eq by lia. lia. Qed.

Lemma bucket_of_multiple (q : Z) : bucket (3600 * q) = 3600 * q.
Proof. rewrite bucket_div. f_equal. rewrite Z.mul_comm. apply Z.div_mul. lia. Qed.

Lemma generate_token_bucket (now : Z) (user : User) :
  generate_token (Ok now) user = digest_token (token_string user (bucket now)).
Proof. reflexivity. Qed.

Lemma range_spec (n : nat) (k : Z) : In k (range n) <-> 0 <= k < Z.of_nat n.
Proof.
  unfold range. rewrite in_map_iff. split.
  - intros (i & <- & Hi). apply in_seq in Hi. lia.
  - intros Hk. exists (Z.to_nat k). split; [lia|]. apply in_seq. lia.
Qed.

(** The loop answers true exactly when one of the candidates is the token. *)
Lemma check_hours_true (user : User) (token : pystr) (now : Z) (hours : list Z) :
  check_hours user token now hours = Ok true <->
  exists h, In h hours /\
    digest_token (token_string user (bucket now - h * 3600)) = Ok token.
Proof.
  induction hours as [|h rest IH]; simpl.
  - split; [discriminate | intros (h & [] & _)].
  - fold (bucket now).
    destruct (digest_token (token_string user (bucket now - h * 3600)))
      as [expected|e] eqn:Hd; simpl.
    + destruct (pystr_eqb token expected) eqn:Heq.
      * apply pystr_eqb_true in Heq. subst expected.
        split; [|reflexivity]. intros _. exists h. auto.
      * rewrite IH. split.
        -- intros (k & Hk & Hdk). exists k. auto.
        -- intros (k & [<-|Hk] & Hdk); [|exists k; auto].
           rewrite Hd in Hdk. injection Hdk as ->.
           assert (pystr_eqb token token = true) by now apply pystr_eqb_true.
           congruence.
    + split; [discriminate|]. intros (k & _ & Hdk).
      apply (digest_token_raise _ _ (bucket now - k * 3600)) in Hd. congruence.
Qed.

Lemma check_token_try_ok (user : User) (token : pystr) (now : Z) :
  check_token_try (Ok now) user token =
  check_hours user token now (range 24).
Proof. reflexivity. Qed.

Lemma check_token_true (user : User) (token : pystr) (now : Z) :
  check_token (Ok now) user token = true <->
  exists k, 0 <= k < 24 /\
    digest_token (token_string user (bucket now - k * 3600)) = Ok token.
Proof.
  unfold check_token. rewrite check_token_try_ok.
  destruct (check_hours user token now (range 24)) as [b|e] eqn:Hc.
  - destruct b.
    + apply check_hours_true in Hc as (k & Hk & Hd).
      split; [|reflexivity]. intros _. exists k. split; [|exact Hd].
      now apply (range_spec 24).
    + split; [discriminate|]. intros (k & Hk & Hd).
      assert (check_hours user token now (range 24) = Ok true); [|congruence].
      apply check_hours_true. exists k. split; [|exact Hd].
      now apply (range_spec 24).
  - split; [discriminate|]. intros (k & Hk & Hd).
    assert (check_hours user token now (range 24) = Ok true); [|congruence].
    apply check_hours_true. exists k. split; [|exact Hd].
    now apply (range_spec 24).
Qed.

(* ------------------------------------------------------------------ *)
(** ** The token is a function of 128 bits of the digest *)

Lemma add32_word32 (x y : Z) : word32 (SHA256.add32 x y).
Proof. unfold word32, SHA256.add32, SHA256.modulus. apply Z.mod_pos_bound. lia. Qed.

Lemma compress_words32 (s : SHA256.state) (block : list Z) :
  words32 (SHA256.compress s block).
Proof.
  unfold SHA256.compress.
  destruct (fold_left SHA256.round _ s) as [[[[[[[a' b'] c'] d'] e'] f'] g'] h'].
  destruct s as [[[[[[[a b] c] d] e] f] g] h].
  simpl. repeat split; apply add32_word32.
Qed.

Lemma fold_compress_words32 (blocks : list (list Z)) (s : SHA256.state) :
  words32 s -> words32 (fold_left SHA256.compress blocks s).
Proof.
  revert s. induction blocks as [|b blocks IH]; intros s Hs; simpl.
  - exact Hs.
  - apply IH, compress_words32.
Qed.

Lemma hash_words32 (msg : bytes) : words32 (SHA256.hash msg).
Proof.
  unfold SHA256.hash. apply fold_compress_words32.
  unfold SHA256.initial_state, words32, word32. lia.
Qed.

Lemma prefix128_range (s : SHA256.state) :
  words32 s -> 0 <= prefix128 s < 2 ^ 128.
Proof.
  destruct s as [[[[[[[a b] c] d] e] f] g] h].
  unfold words32, word32, prefix128. lia.
Qed.

Lemma hex_word_length (x : Z) : length (SHA256.hex_word x) = 8%nat.
Proof. reflexivity. Qed.

Lemma take_hexdigest (a b c d e f g h : Z) :
  take 32 (SHA256.hexdigest (a, b, c, d, e, f, g, h)) =
  SHA256.hex_word a ++ SHA256.hex_word b ++ SHA256.hex_word c
    ++ SHA256.hex_word d.
Proof.
  unfold SHA256.hexdigest.
  set (rest := SHA256.hex_word e ++ _).
  transitivity (take 32 ((SHA256.hex_word a ++ SHA256.hex_word b
                            ++ SHA256.hex_word c ++ SHA256.hex_word d) ++ rest)).
  - now rewrite <- !app_assoc.
  - apply take_app_length'.
    rewrite !length_app, !hex_word_length. reflexivity.
Qed.

(** Digests that agree on their first 128 bits give the same token. *)
Lemma token_of_prefix128 (s t : SHA256.state) :
  words32 s -> words32 t -> prefix128 s = prefix128 t ->
  take 32 (SHA256.hexdigest s) = take 32 (SHA256.hexdigest t).
Proof.
  destruct s as [[[[[[[a b] c] d] e] f] g] h].
  destruct t as [[[[[[[a' b'] c'] d'] e'] f'] g'] h'].
  unfold words32, word32, prefix128. intros Hs Ht Heq.
  rewrite !take_hexdigest.
  assert (a = a') by lia. assert (b = b') by lia.
  assert (c = c') by lia. assert (d = d') by lia. now subst.
Qed.

(* ------------------------------------------------------------------ *)
(** ** Counting: more token strings than tokens *)

Lemma bounded_search (g : N -> N) (v M : N) :
  (exists i, (i <= M)%N /\ g i = v) \/ (forall i, (i <= M)%N -> g i <> v).
Proof.
  induction M as [|M IH] using N.peano_ind.
  - destruct (N.eq_dec (g 0%N) v) as [Heq|Hne].
    + left. exists 0%N. split; [lia | exact Heq].
    + right. intros i Hi. assert (i = 0%N) as -> by lia. exact Hne.
  - destruct IH as [(i & Hi & Heq)|Hnone].
    + left. exists i. split; [lia | exact Heq].
    + destruct (N.eq_dec (g (N.succ M)) v) as [Heq|Hne].
      * left. exists (N.succ M). split; [lia | exact Heq].
      * right. intros i Hi. destruct (N.eq_dec i (N.succ M)) as [->|Hi'].
        -- exact Hne.
        -- apply Hnone. lia.
Qed.

(** [M + 1] values below [M] cannot all differ. *)
Lemma pigeonhole (M : N) (g : N -> N) :
  (forall i, (i <= M)%N -> (g i < M)%N) ->
  exists i j, (i < j)%N /\ (j <= M)%N /\ g i = g j.
Proof.
  revert g. induction M as [|M IH] using N.peano_ind; intros g Hg.
  - specialize (Hg 0%N). lia.
  - destruct (bounded_search g (g (N.succ M)) M) as [(i & Hi & Heq)|Hnone].
    + exists i, (N.succ M). repeat split; [lia | lia | exact Heq].
    + pose (g' := fun i => if (g i =? M)%N then g (N.succ M) else g i).
      destruct (IH g') as (i & j & Hij & Hj & Heq).
      { intros i Hi. unfold g'.
        pose proof (Hg i ltac:(lia)). pose proof (Hg (N.succ M) ltac:(lia)).
        pose proof (Hnone i Hi).
        destruct (N.eqb_spec (g i) M); lia. }
      exists i, j. repeat split; [lia | lia |].
      pose proof (Hnone i ltac:(lia)). pose proof (Hnone j ltac:(lia)).
      unfold g' in Heq.
      destruct (N.eqb_spec (g i) M), (N.eqb_spec (g j) M); congruence.
Qed.

Lemma digest_token_ascii (s : pystr) :
  Forall is_ascii s ->
  digest_token s = Ok (take 32 (sha256_hexdigest (map Z.of_N s))).
Proof. intros Hs. unfold digest_token. now rewrite encode_ascii. Qed.

(** Among any sequence of token strings, two of them get the same token. *)
Lemma digest_collision (s : N -> pystr) :
  (forall i, Forall is_ascii (s i)) ->
  exists i j tok, (i < j)%N /\
    digest_token (s i) = Ok tok /\ digest_token (s j) = Ok tok.
Proof.
  intros Hs.
  pose (g := fun i => Z.to_N (prefix128 (SHA256.hash (map Z.of_N (s i))))).
  destruct (pigeonhole (2 ^ 128)%N g) as (i & j & Hij & _ & Heq).
  { intros i _. unfold g.
    pose proof (prefix128_range _ (hash_words32 (map Z.of_N (s i)))). lia. }
  exists i, j, (take 32 (sha256_hexdigest (map Z.of_N (s j)))).
  split; [exact Hij|]. rewrite !digest_token_ascii by apply Hs.
  split; [|reflexivity]. f_equal. unfold sha256_hexdigest.
  apply token_of_prefix128; try apply hash_words32.
  pose proof (prefix128_range _ (hash_words32 (map Z.of_N (s i)))).
  pose proof (prefix128_range _ (hash_words32 (map Z.of_N (s j)))).
  unfold g in Heq. lia.
Qed.

(* ------------------------------------------------------------------ *)
(** ** Token strings of different inputs *)

Lemma token_string_time_inj (user : User) (t t' : Z) :
  token_string user t = token_string user t' -> t = t'.
Proof.
  rewrite !token_string_prefix. intros Heq.
  apply app_inv_head in Heq. now apply str_of_int_inj.
Qed.

Lemma token_string_ascii (user : User) (t : Z) :
  Forall is_ascii (email user) -> Forall is_ascii (password user) ->
  Forall is_ascii (token_string user t).
Proof.
  intros He Hp. unfold token_string.
  assert (Hdash : Forall is_ascii (py "-")).
  { constructor; [unfold is_ascii; simpl; lia | constructor]. }
  repeat (apply Forall_app; split); auto using str_of_int_ascii.
Qed.

(** A separator that occurs in neither tail splits a string in one way. *)
Lemma split_at_last (c : codepoint) (a b x y : pystr) :
  ~ In c x -> ~ In c y -> a ++ c :: x = b ++ c :: y -> a = b /\ x = y.
Proof.
  intros Hx Hy. revert b.
  induction a as [|d a IH]; intros [|d' b]; simpl; intros Heq.
  - injection Heq as ->. auto.
  - injection Heq as <- ->. exfalso. apply Hx, in_or_app. right. now left.
  - injection Heq as -> <-. exfalso. apply Hy, in_or_app. right. now left.
  - injection Heq as -> Heq. destruct (IH b Heq) as [-> ->]. auto.
Qed.

Lemma digits_no_dash (s : pystr) : Forall is_digit s -> ~ In 45%N s.
Proof.
  intros Hs Hin. rewrite Forall_forall in Hs.
  apply list_elem_of_In, Hs in Hin. unfold is_digit in Hin. lia.
Qed.

(** With times that are not negative, the password field can be read back
    from the token string. *)
Lemma token_string_password_inj (user user' : User) (t t' : Z) :
  email user' = email user -> id user' = id user -> 0 <= t -> 0 <= t' ->
  token_string user t = token_string user' t' ->
  password user' = password user.
Proof.
  intros He Hi Ht Ht'. unfold token_string. rewrite He, Hi. intros Heq.
  do 4 apply app_inv_head in Heq.
  change (py "-") with [45%N] in Heq. simpl in Heq.
  apply split_at_last in Heq as [Hp _];
    auto using digits_no_dash, str_of_int_digits.
Qed.

Lemma digest_separates_of_diff (s1 s2 : pystr) :
  digest_token s1 <> digest_token s2 -> digest_separates s1 s2.
Proof. intros Hne tok H1 H2. congruence. Qed.

(** A token whose string is none of the 24 candidates, and whose digest is
    told apart from theirs, is refused. *)
Lemma check_token_refuses (user : User) (s : pystr) (tok : pystr) (now : Z) :
  digest_token s = Ok tok ->
  (forall k, 0 <= k < 24 -> s <> token_string user (bucket now - k * 3600)) ->
  (forall k, 0 <= k < 24 ->
     digest_separates s (token_string user (bucket now - k * 3600))) ->
  check_token (Ok now) user tok = false.
Proof.
  intros Hs Hne Hsep. destruct (check_token (Ok now) user tok) eqn:Hc; [|reflexivity].
  apply check_token_true in Hc as (k & Hk & Hd).
  exfalso. apply (Hne k Hk). exact (Hsep k Hk tok Hs Hd).
Qed.

Lemma check_token_accepts (user : User) (tok : pystr) (t_gen now : Z) :
  generate_token (Ok t_gen) user = Ok tok ->
  0 <= now / 3600 - t_gen / 3600 <= 23 ->
  check_token (Ok now) user tok = true.
Proof.
  rewrite generate_token_bucket. intros Hg Hd.
  apply check_token_true. exists (now / 3600 - t_gen / 3600). split; [lia|].
  replace (bucket now - (now / 3600 - t_gen / 3600) * 3600) with (bucket t_gen);
    [exact Hg|].
  rewrite !bucket_div. lia.
Qed.

Ltac first_24 k Hk :=
  let Hc := fresh "Hc" in
  assert (k = 0 \/ k = 1 \/ k = 2 \/ k = 3 \/ k = 4 \/ k = 5 \/ k = 6 \/ k = 7
          \/ k = 8 \/ k = 9 \/ k = 10 \/ k = 11 \/ k = 12 \/ k = 13 \/ k = 14
          \/ k = 15 \/ k = 16 \/ k = 17 \/ k = 18 \/ k = 19 \/ k = 20
          \/ k = 21 \/ k = 22 \/ k = 23) as Hc by lia;
  clear Hk; repeat destruct Hc as [->|Hc]; [..|subst k].

Ltac digests_differ :=
  apply digest_separates_of_diff; vm_compute; congruence.

(* ------------------------------------------------------------------ *)
(** ** The token scheme *)

(** C1. [check_token] answers true exactly when the presented token is the
    one that [generate_token] gives for one of the 24 hour buckets
    [(now - now mod 3600) - k * 3600], k = 0, ..., 23; the loop tries them in
    that order, from the current bucket backward. *)
Theorem check_token_iff_candidate (user : User) (token : pystr) (now : Z) :
  (check_token (Ok now) user token = true <->
   exists k, 0 <= k <= 23 /\
     generate_token (Ok ((now - now mod 3600) - k * 3600)) user = Ok token)
  /\ check_token_try (Ok now) user token =
     check_hours user token now
       [0; 1; 2; 3; 4; 5; 6; 7; 8; 9; 10; 11; 12; 13; 14; 15; 16; 17; 18; 19;
        20; 21; 22; 23].
Proof.
  split; [|reflexivity].
  rewrite check_token_true. fold (bucket now).
  assert (Hb : forall k, bucket (bucket now - k * 3600) = bucket now - k * 3600).
  { intros k. rewrite (bucket_div now).
    replace (3600 * (now / 3600) - k * 3600) with (3600 * (now / 3600 - k)) by lia.
    apply bucket_of_multiple. }
  split; intros (k & Hk & Hd); exists k; (split; [lia|]).
  - now rewrite generate_token_bucket, Hb.
  - now rewrite generate_token_bucket, Hb in Hd.
Qed.

(** C2. [generate_token] is the generate operation of the specification: the
    first 32 characters of the hexadecimal SHA-256 digest of
    "{email}-{id}-{password}-{time_bucket}", the time floored to the hour. *)
Theorem generate_token_spec (user : User) (now : Z) :
  generate_token (Ok now) user = spec_generate user now.
Proof. reflexivity. Qed.

(** A token, when one is produced, has exactly 32 characters. *)
Lemma generate_token_length (user : User) (now : Z) (tok : pystr) :
  generate_token (Ok now) user = Ok tok -> length tok = 32%nat.
Proof.
  rewrite generate_token_bucket. unfold digest_token.
  destruct (encode _) as [bs|e]; simpl; [|discriminate].
  intros [= <-]. unfold sha256_hexdigest.
  destruct (SHA256.hash bs) as [[[[[[[a b] c] d] e] f] g] h].
  rewrite take_hexdigest, !length_app, !hex_word_length. reflexivity.
Qed.

(** C5. Two times in the same hour bucket give the same token for the same
    user record. *)
Theorem generate_token_bucket_stable (user : User) (t1 t2 : Z) :
  t1 / 3600 = t2 / 3600 ->
  generate_token (Ok t1) user = generate_token (Ok t2) user.
Proof.
  intros Hb. rewrite !generate_token_bucket, !bucket_div. now rewrite Hb.
Qed.

Lemma generate_token_bucket_stable_witness :
  3600 / 3600 = 7199 / 3600 /\
  generate_token (Ok 3600) (mkUser (py "a@b.com") 7 (py "h1")) =
  generate_token (Ok 7199) (mkUser (py "a@b.com") 7 (py "h1")).
Proof.
  split; [reflexivity|].
  apply (generate_token_bucket_stable _ 3600 7199). reflexivity.
Defined.

(** C6. An exception raised inside the [try] block of [check_token] is not
    passed on: the answer is false. *)
Theorem check_token_swallows_exceptions
    (clock : result Z) (user : User) (token : pystr) (e : exn) :
  check_token_try clock user token = Raise e ->
  check_token clock user token = false.
Proof. unfold check_token. now intros ->. Qed.

Lemma check_hours_cons (user : User) (token : pystr) (now h : Z)
    (rest : list Z) :
  check_hours user token now (h :: rest) =
  (expected ← digest_token (token_string user (bucket now - h * 3600));
   if pystr_eqb token expected then Ok true
   else check_hours user token now rest).
Proof. reflexivity. Qed.

Lemma digest_token_prefix (user : User) (t : Z) :
  digest_token (token_string user t) =
  (pre ← encode (token_prefix user);
   Ok (take 32 (sha256_hexdigest (pre ++ map Z.of_N (str_of_int t))))).
Proof.
  unfold digest_token. rewrite encode_token_string.
  now destruct (encode (token_prefix user)).
Qed.

(** The block raises when the clock does, or when the token string cannot be
    encoded. *)
Lemma check_token_try_raises (clock : result Z) (user : User) (token : pystr)
    (e : exn) :
  check_token_try clock user token = Raise e <->
  clock = Raise e \/
  ((exists now, clock = Ok now) /\ encode (token_prefix user) = Raise e).
Proof.
  destruct clock as [now|e'].
  - rewrite check_token_try_ok.
    change (range 24) with (0 :: map Z.of_nat (seq 1 23)).
    split.
    + intros Hc. right. split; [eauto|].
      destruct (encode (token_prefix user)) as [pre|e0] eqn:Hp.
      * exfalso. revert Hc. generalize (0 :: map Z.of_nat (seq 1 23)).
        induction l as [|h l IH]; [discriminate|].
        rewrite check_hours_cons, digest_token_prefix, Hp.
        cbn [mbind result_bind]. destruct (pystr_eqb _ _); [discriminate | exact IH].
      * revert Hc. rewrite check_hours_cons, digest_token_prefix, Hp.
        cbn [mbind result_bind]. congruence.
    + intros [Hc|[_ Hp]]; [discriminate|].
      now rewrite check_hours_cons, digest_token_prefix, Hp.
  - split.
    + intros [= ->]. now left.
    + intros [[= ->]|[[now Hn] _]]; [reflexivity | discriminate].
Qed.

(** A surrogate in the e-mail address makes [encode] raise. *)
Lemma check_token_swallows_exceptions_witness :
  check_token_try (Ok 1735689600) (mkUser [97; 0xD800]%N 7 (py "h1")) (py "x")
    = Raise UnicodeEncodeError /\
  check_token (Ok 1735689600) (mkUser [97; 0xD800]%N 7 (py "h1")) (py "x")
    = false.
Proof.
  split; [reflexivity|].
  apply (check_token_swallows_exceptions _ _ _ UnicodeEncodeError). reflexivity.
Defined.

(* ------------------------------------------------------------------ *)
(** ** The validity window *)

(** X17. A token generated in bucket B verifies while the bucket of [now] is
    0 to 23 buckets after B.  From 24 buckets on it is refused, provided the
    truncated digest tells the token string of B apart from the 24 candidate
    strings. *)
Theorem window_boundary (user : User) (t_gen now : Z) (tok : pystr) :
  generate_token (Ok t_gen) user = Ok tok ->
  (0 <= now / 3600 - t_gen / 3600 <= 23 ->
   check_token (Ok now) user tok = true) /\
  (24 <= now / 3600 - t_gen / 3600 ->
   (forall k, 0 <= k < 24 ->
      digest_separates (token_string user (bucket t_gen))
                       (token_string user (bucket now - k * 3600))) ->
   check_token (Ok now) user tok = false).
Proof.
  intros Hg. split.
  - now apply check_token_accepts.
  - intros Hd Hsep. rewrite generate_token_bucket in Hg.
    apply (check_token_refuses _ _ _ _ Hg); [|exact Hsep].
    intros k Hk Heq. apply token_string_time_inj in Heq.
    rewrite !bucket_div in Heq. lia.
Qed.

(** The worked example: generated at T = 1735689600, presented at T, at
    T + 23 h and at T + 24 h. *)
Lemma window_boundary_witness :
  let user := mkUser (py "a@b.com") 7 (py "h1") in
  let X := py "def551ddb040b1737021642a5ec4a3ac" in
  check_token (Ok 1735689600) user X = true /\
  check_token (Ok (1735689600 + 23 * 3600)) user X = true /\
  check_token (Ok (1735689600 + 24 * 3600)) user X = false.
Proof.
  intros user X.
  assert (Hg : generate_token (Ok 1735689600) user = Ok X)
    by (vm_compute; reflexivity).
  split; [|split].
  - apply (proj1 (window_boundary user 1735689600 1735689600 X Hg)).
    vm_compute. split; discriminate.
  - apply (proj1 (window_boundary user 1735689600 _ X Hg)).
    vm_compute. split; discriminate.
  - apply (proj2 (window_boundary user 1735689600 _ X Hg)).
    + vm_compute. discriminate.
    + intros k Hk. first_24 k Hk; digests_differ.
Defined.

(** X18. The loop looks backward only: a token generated in a bucket later
    than the current one is refused, provided the truncated digest tells its
    token string apart from the 24 candidate strings. *)
Theorem future_token_refused (user : User) (t_gen now : Z) (tok : pystr) :
  now / 3600 < t_gen / 3600 ->
  generate_token (Ok t_gen) user = Ok tok ->
  (forall k, 0 <= k < 24 ->
     digest_separates (token_string user (bucket t_gen))
                      (token_string user (bucket now - k * 3600))) ->
  check_token (Ok now) user tok = false.
Proof.
  intros Hlt Hg Hsep. rewrite generate_token_bucket in Hg.
  apply (check_token_refuses _ _ _ _ Hg); [|exact Hsep].
  intros k Hk Heq. apply token_string_time_inj in Heq.
  rewrite !bucket_div in Heq. lia.
Qed.

(** Generated one hour ahead of the verifier's clock. *)
Lemma future_token_refused_witness :
  check_token (Ok 1735689600) (mkUser (py "a@b.com") 7 (py "h1"))
    (py "da5b0d4f31e9230462834fdb8a9269a9") = false.
Proof.
  apply (future_token_refused _ (1735689600 + 3600) 1735689600).
  - vm_compute. reflexivity.
  - vm_compute. reflexivity.
  - intros k Hk. first_24 k Hk; digests_differ.
Defined.

(* ------------------------------------------------------------------ *)
(** ** A changed password *)

(** Against C4 as stated.  The fields of the token string are joined by "-",
    and a negative time is written with a leading "-".  Password "h-" at
    hour 3600 and password "h" at hour -3600 give one and the same string
    "a@b.com-7-h--3600": with the clock at 3600, the candidate two hours back
    accepts the old token for the new password. *)
Lemma password_change_counterexample :
  let old := mkUser (py "a@b.com") 7 (py "h-") in
  let new := mkUser (py "a@b.com") 7 (py "h") in
  let X := py "7bcd0915fd2304bdfedf1d0a4992a13b" in
  password new <> password old /\
  generate_token (Ok 3600) old = Ok X /\
  token_string old 3600 = token_string new (-3600) /\
  check_token (Ok 3600) new X = true.
Proof.
  intros old new X. split; [discriminate|].
  split; [vm_compute; reflexivity|].
  split; vm_compute; reflexivity.
Qed.

(** Away from the epoch a collision of the truncated digest still lets an
    old token through: among the passwords "0", "1", "2", ... two have the
    same token. *)
Lemma password_change_collision :
  exists old new now tok,
    email new = email old /\ id new = id old /\
    password new <> password old /\
    generate_token (Ok now) old = Ok tok /\
    check_token (Ok now) new tok = true.
Proof.
  pose (user := fun i => mkUser (py "a@b.com") 7 (str_of_int (Z.of_N i))).
  destruct (digest_collision (fun i => token_string (user i) 1735689600))
    as (i & j & tok & Hij & Hi & Hj).
  { intros i. apply token_string_ascii; simpl.
    - repeat (constructor; [unfold is_ascii; lia|]); constructor.
    - apply str_of_int_ascii. }
  exists (user i), (user j), 1735689600, tok.
  split; [reflexivity|]. split; [reflexivity|]. split; [|split].
  - simpl. intros Heq. apply str_of_int_inj in Heq. lia.
  - exact Hi.
  - apply check_token_true. exists 0. split; [lia|]. exact Hj.
Qed.

(** C4 (amended). After the password hash has changed, a token of the old
    record is refused for the new one, when no hour bucket involved is
    negative (the token was generated at or after the epoch and is presented
    at least 23 hours after it) and the truncated digest tells the old token
    string apart from the 24 candidate strings. *)
Theorem password_change_invalidates
    (old new : User) (t_gen now : Z) (tok : pystr) :
  email new = email old -> id new = id old ->
  password new <> password old ->
  0 <= t_gen -> 23 * 3600 <= now ->
  (forall k, 0 <= k < 24 ->
     digest_separates (token_string old (bucket t_gen))
                      (token_string new (bucket now - k * 3600))) ->
  generate_token (Ok t_gen) old = Ok tok ->
  check_token (Ok now) new tok = false.
Proof.
  intros He Hi Hp Hgen Hnow Hsep Hg. rewrite generate_token_bucket in Hg.
  apply (check_token_refuses _ _ _ _ Hg); [|exact Hsep].
  intros k Hk Heq. apply Hp.
  apply (token_string_password_inj old new
           (bucket t_gen) (bucket now - k * 3600) He Hi); [| |exact Heq].
  - rewrite bucket_div. pose proof (Z.div_pos t_gen 3600). lia.
  - rewrite bucket_div.
    assert (23 <= now / 3600) by (apply Z.div_le_lower_bound; lia). lia.
Qed.

(** The worked example: the hash goes from "h1" to "h2" within the hour. *)
Lemma password_change_invalidates_witness :
  check_token (Ok 1735689600) (mkUser (py "a@b.com") 7 (py "h2"))
    (py "def551ddb040b1737021642a5ec4a3ac") = false.
Proof.
  apply (password_change_invalidates
           (mkUser (py "a@b.com") 7 (py "h1")) _ 1735689600 1735689600).
  - reflexivity.
  - reflexivity.
  - discriminate.
  - lia.
  - lia.
  - intros k Hk. first_24 k Hk; digests_differ.
  - vm_compute. reflexivity.
Defined.

(* ------------------------------------------------------------------ *)
(** ** The views *)

Section ViewProperties.
Context `{Django}.

Implicit Types (w : world) (request : HttpRequest) (clock : result Z).

(** C8. When the lookup by e-mail finds no user the reset-request view
    answers 404 and sends nothing.  When it finds a user and a token is
    generated for that user, the view hands the mail sender a message whose
    link holds the base64 form of the user's key and that token, and answers
    200 once the message is sent. *)
Theorem reset_request_post_spec clock request w :
  let email := data request !! "email" in
  (objects_get_email (db w) email = Raise DoesNotExist ->
   reset_request_post clock request w =
   (w, Ok (Response [("error", py "User not found")] 404)))
  /\
  (forall user token,
     objects_get_email (db w) email = Ok user ->
     generate_token clock user = Ok token ->
     let uid := urlsafe_base64_encode (force_bytes (id user)) in
     let url := scheme request ++ py "://" ++ get_host request
                  ++ py "/api/v1/reset-password/" ++ uid ++ py "/" ++ token in
     let sent := send_mail (mail w)
                   (mkEmail reset_subject (reset_message_prefix ++ url)
                            DEFAULT_FROM_EMAIL [email]) in
     fst (reset_request_post clock request w) = mkWorld (db w) (fst sent) /\
     (snd sent = Ok tt ->
      snd (reset_request_post clock request w) =
      Ok (Response [("message", py "Password reset link sent")] 200))).
Proof.
  intros email. split.
  - intros Hget. unfold reset_request_post, reset_request_try, view_bind, query.
    fold email. now rewrite Hget.
  - intros user token Hget Hgen uid url sent.
    unfold reset_request_post, reset_request_try, view_bind, query, lift,
      do_send_mail, ret.
    fold email. rewrite Hget, Hgen. fold uid. unfold reset_url. fold url.
    fold sent. destruct sent as [box [[]|e]]; simpl.
    + split; [reflexivity | reflexivity].
    + split; [now destruct e | discriminate].
Qed.

(** C7. The confirm view leaves the world as it was, unless the identifier
    decodes and resolves to a user, [check_token] accepts the token, both
    password fields are present and equal, and the password has at least 8
    characters; then the user with the password set is what is saved. *)
Theorem reset_confirm_post_sets_password clock request uidb64 token w :
  fst (reset_confirm_post clock request uidb64 token w) = w
  \/
  exists raw uid user p user',
    urlsafe_base64_decode uidb64 = Ok raw /\
    force_str raw = Ok uid /\
    objects_get_pk (db w) uid = Ok user /\
    check_token clock user token = true /\
    POST request !! "new_password1" = Some p /\
    POST request !! "new_password2" = Some p /\
    (8 <= length p)%nat /\
    set_password user p = Ok user' /\
    fst (reset_confirm_post clock request uidb64 token w) =
    mkWorld (fst (save (db w) user')) (mail w).
Proof.
  unfold reset_confirm_post, reset_confirm_try, view_bind, lift, query, ret,
    do_save.
  destruct (urlsafe_base64_decode uidb64) as [raw|e] eqn:Hraw;
    cbn [mbind result_bind]; [|left; now destruct (caught_by_confirm e)].
  destruct (force_str raw) as [uid|e] eqn:Huid;
    [|left; now destruct (caught_by_confirm e)].
  destruct (objects_get_pk (db w) uid) as [user|e] eqn:Huser;
    [|left; now destruct (caught_by_confirm e)].
  destruct (check_token clock user token) eqn:Hcheck; [|now left].
  destruct (POST request !! "new_password1") as [p1|] eqn:H1; [|now left].
  destruct (POST request !! "new_password2") as [p2|] eqn:H2;
    [|left; simpl; now rewrite orb_true_r].
  destruct (negb (truthy (Some p1)) || negb (truthy (Some p2))); [now left|].
  destruct (bool_decide (Some p1 = Some p2)) eqn:Heq; [|now left].
  apply bool_decide_eq_true in Heq. injection Heq as <-.
  cbn [negb]. destruct (Z.ltb_spec (len (Some p1)) 8) as [|Hlen]; [now left|].
  change (default [] (Some p1)) with p1. destruct (set_password user p1) as [user'|e] eqn:Hset;
    [|left; now destruct (caught_by_confirm e)].
  right. exists raw, uid, user, p1, user'.
  repeat (split; [first [assumption | reflexivity | simpl in Hlen; lia]|]).
  destruct (save (db w) user') as [s [[]|e]]; [reflexivity|].
  now destruct (caught_by_confirm e).
Qed.

(** C10. When the token is accepted but the submitted passwords are not (a
    field missing or empty, the two unequal, or fewer than 8 characters),
    the view answers with the form and an error, and the world, the user
    table in it, is the one it started from. *)
Theorem reset_confirm_post_rejects_passwords
    clock request uidb64 token w raw uid user :
  urlsafe_base64_decode uidb64 = Ok raw ->
  force_str raw = Ok uid ->
  objects_get_pk (db w) uid = Ok user ->
  check_token clock user token = true ->
  let password1 := POST request !! "new_password1" in
  let password2 := POST request !! "new_password2" in
  (truthy password1 = false \/ truthy password2 = false \/
   password1 <> password2 \/ len password1 < 8) ->
  fst (reset_confirm_post clock request uidb64 token w) = w /\
  exists msg,
    snd (reset_confirm_post clock request uidb64 token w) =
    Ok (form_error msg uidb64 token).
Proof.
  intros Hraw Huid Huser Hcheck password1 password2 Hbad.
  unfold reset_confirm_post, reset_confirm_try, view_bind, lift, query, ret.
  rewrite Hraw. cbn [mbind result_bind]. rewrite Huid, Huser, Hcheck.
  fold password1 password2.
  destruct (negb (truthy password1) || negb (truthy password2)) eqn:Hmissing;
    [split; eauto|].
  destruct (bool_decide (password1 = password2)) eqn:Heq;
    [|split; simpl; eauto].
  cbn [negb]. destruct (Z.ltb_spec (len password1) 8) as [Hlt|Hge];
    [split; eauto|].
  exfalso. apply bool_decide_eq_true in Heq.
  apply orb_false_iff in Hmissing as [Hm1 Hm2].
  apply negb_false_iff in Hm1, Hm2.
  destruct Hbad as [Hb|[Hb|[Hb|Hb]]]; congruence || lia.
Qed.

End ViewProperties.

(* ------------------------------------------------------------------ *)
(** ** The views on concrete requests *)


Lemma reset_request_post_spec_witness :
  reset_request_post (Ok Run.T) (Run.ask "nobody@b.com") Run.start =
    (Run.start, Ok (Response [("error", py "User not found")] 404)) /\
  fst (reset_request_post (Ok Run.T) (Run.ask "a@b.com") Run.start) =
    Run.world_of [Run.alice]
      [mkEmail reset_subject
         (reset_message_prefix
            ++ py "https://example.com/api/v1/reset-password/7/def551ddb040b1737021642a5ec4a3ac")
         (py "noreply@example.com") [Some (py "a@b.com")]] /\
  snd (reset_request_post (Ok Run.T) (Run.ask "a@b.com") Run.start) =
    Ok (Response [("message", py "Password reset link sent")] 200).
Proof.
  split; [|split].
  - apply (proj1 (reset_request_post_spec (Ok Run.T) (Run.ask "nobody@b.com")
                    Run.start)).
    vm_compute. reflexivity.
  - refine (proj1 (proj2 (reset_request_post_spec (Ok Run.T) (Run.ask "a@b.com")
                            Run.start) Run.alice Run.X _ _));
      vm_compute; reflexivity.
  - refine (proj2 (proj2 (reset_request_post_spec (Ok Run.T) (Run.ask "a@b.com")
                            Run.start) Run.alice Run.X _ _) _);
      vm_compute; reflexivity.
Defined.

(** A run in which every check passes and the password is set. *)
Example confirm_run_saves_new_password :
  reset_confirm_post (Ok Run.T) (Run.submit "correct horse" "correct horse")
    (py "7") Run.X Run.start =
  (Run.world_of [mkUser (py "a@b.com") 7 (py "plain$correct horse")] [],
   Ok (Render template_name
         [("validlink", VBool true); ("success", VBool true)])).
Proof. vm_compute. reflexivity. Qed.

Lemma reset_confirm_post_rejects_passwords_witness :
  fst (reset_confirm_post (Ok Run.T) (Run.submit "short" "short")
         (py "7") Run.X Run.start) = Run.start /\
  fst (reset_confirm_post (Ok Run.T) (Run.submit "correct horse" "correct hors")
         (py "7") Run.X Run.start) = Run.start /\
  fst (reset_confirm_post (Ok Run.T) (Run.submit "correct horse" "")
         (py "7") Run.X Run.start) = Run.start.
Proof.
  split; [|split].
  - refine (proj1 (reset_confirm_post_rejects_passwords (Ok Run.T)
                     (Run.submit "short" "short") (py "7") Run.X Run.start
                     [55] (py "7") Run.alice _ _ _ _ _));
      try (vm_compute; reflexivity).
    right. right. right. vm_compute. reflexivity.
  - refine (proj1 (reset_confirm_post_rejects_passwords (Ok Run.T)
                     (Run.submit "correct horse" "correct hors") (py "7") Run.X
                     Run.start [55] (py "7") Run.alice _ _ _ _ _));
      try (vm_compute; reflexivity).
    right. right. left. vm_compute. congruence.
  - refine (proj1 (reset_confirm_post_rejects_passwords (Ok Run.T)
                     (Run.submit "correct horse" "") (py "7") Run.X
                     Run.start [55] (py "7") Run.alice _ _ _ _ _));
      try (vm_compute; reflexivity).
    right. left. vm_compute. reflexivity.
Defined.

(* ------------------------------------------------------------------ *)
(** ** The shape of a token *)

Lemma hex_digit_is_hex (x : Z) : 0 <= x < 16 -> is_hex_digit (SHA256.hex_digit x).
Proof.
  intros Hx. unfold SHA256.hex_digit, is_hex_digit.
  destruct (Z.ltb_spec x 10); lia.
Qed.

Lemma hex_word_is_hex (x : Z) : Forall is_hex_digit (SHA256.hex_word x).
Proof.
  unfold SHA256.hex_word. apply Forall_forall. intros c Hc.
  apply list_elem_of_In, in_map_iff in Hc as (i & <- & _).
  apply hex_digit_is_hex, Z.mod_pos_bound. lia.
Qed.

Lemma digest_token_shape (s tok : pystr) :
  digest_token s = Ok tok ->
  length tok = 32%nat /\ Forall is_hex_digit tok.
Proof.
  unfold digest_token. destruct (encode s) as [bs|e]; simpl; [|discriminate].
  intros [= <-]. unfold sha256_hexdigest.
  destruct (SHA256.hash bs) as [[[[[[[a b] c] d] e] f] g] h].
  rewrite take_hexdigest. split.
  - rewrite !length_app, !hex_word_length. reflexivity.
  - repeat (apply Forall_app; split); apply hex_word_is_hex.
Qed.

(** X1. Every token that [generate_token] returns has exactly 32 characters,
    each of them one of 0-9 and a-f. *)
Theorem generate_token_shape (clock : result Z) (user : User) (tok : pystr) :
  generate_token clock user = Ok tok ->
  length tok = 32%nat /\ Forall is_hex_digit tok.
Proof.
  destruct clock as [now|e]; [|discriminate].
  rewrite generate_token_bucket. apply digest_token_shape.
Qed.

Lemma generate_token_shape_witness :
  length (py "def551ddb040b1737021642a5ec4a3ac") = 32%nat /\
  Forall is_hex_digit (py "def551ddb040b1737021642a5ec4a3ac").
Proof.
  apply (generate_token_shape (Ok 1735689600)
           (mkUser (py "a@b.com") 7 (py "h1"))).
  vm_compute. reflexivity.
Defined.

(** X2. [check_token] refuses every presented token that has not exactly 32
    characters or holds a character outside 0-9 and a-f (an upper-case
    letter, say), for every user record and every clock. *)
Theorem check_token_refuses_malformed
    (clock : result Z) (user : User) (token : pystr) :
  length token <> 32%nat \/ ~ Forall is_hex_digit token ->
  check_token clock user token = false.
Proof.
  intros Hbad. destruct clock as [now|e]; [|reflexivity].
  destruct (check_token (Ok now) user token) eqn:Hc; [|reflexivity].
  apply check_token_true in Hc as (k & _ & Hd).
  apply digest_token_shape in Hd. tauto.
Qed.

(** The token of the worked example in upper case, and cut short. *)
Lemma check_token_refuses_malformed_witness :
  check_token (Ok 1735689600) (mkUser (py "a@b.com") 7 (py "h1"))
    (py "DEF551DDB040B1737021642A5EC4A3AC") = false /\
  check_token (Ok 1735689600) (mkUser (py "a@b.com") 7 (py "h1"))
    (py "def551ddb040b1737021642a5ec4a3a") = false.
Proof.
  split.
  - apply check_token_refuses_malformed. right. intros Hall.
    apply Forall_inv in Hall. unfold is_hex_digit in Hall. simpl in Hall. lia.
  - apply check_token_refuses_malformed. left. simpl. lia.
Defined.

(* ------------------------------------------------------------------ *)
(** ** The clock *)

Lemma check_hours_same_bucket (user : User) (token : pystr) (t1 t2 : Z)
    (hours : list Z) :
  bucket t1 = bucket t2 ->
  check_hours user token t1 hours = check_hours user token t2 hours.
Proof.
  intros Hb. induction hours as [|h rest IH]; [reflexivity|].
  now rewrite !check_hours_cons, Hb, IH.
Qed.

(** X3. [check_token] reads the clock only up to the hour: two clock values
    in the same hour bucket give the same answer for every user and token. *)
Theorem check_token_same_hour (user : User) (token : pystr) (t1 t2 : Z) :
  t1 / 3600 = t2 / 3600 ->
  check_token (Ok t1) user token = check_token (Ok t2) user token.
Proof.
  intros Hq. unfold check_token. rewrite !check_token_try_ok.
  rewrite (check_hours_same_bucket user token t1 t2); [reflexivity|].
  rewrite !bucket_div. now rewrite Hq.
Qed.

Lemma check_token_same_hour_witness :
  check_token (Ok 1735689600) (mkUser (py "a@b.com") 7 (py "h1"))
    (py "def551ddb040b1737021642a5ec4a3ac") =
  check_token (Ok 1735693199) (mkUser (py "a@b.com") 7 (py "h1"))
    (py "def551ddb040b1737021642a5ec4a3ac").
Proof. apply check_token_same_hour. reflexivity. Defined.

(** X4. An accepted token is one that [generate_token] gives for this user
    at some time that is not after [now] and less than 24 hours before it. *)
Theorem check_token_accepts_recent (user : User) (token : pystr) (now : Z) :
  check_token (Ok now) user token = true ->
  exists t, now - 86400 < t <= now /\ generate_token (Ok t) user = Ok token.
Proof.
  intros Hc. apply check_token_true in Hc as (k & Hk & Hd).
  exists (bucket now - k * 3600). split.
  - unfold bucket. pose proof (Z.mod_pos_bound now 3600). lia.
  - rewrite generate_token_bucket.
    replace (bucket (bucket now - k * 3600)) with (bucket now - k * 3600);
      [exact Hd|].
    rewrite (bucket_div now).
    replace (3600 * (now / 3600) - k * 3600) with (3600 * (now / 3600 - k)) by lia.
    now rewrite bucket_of_multiple.
Qed.

Lemma check_token_accepts_recent_witness :
  exists t, 1735689600 + 82800 - 86400 < t <= 1735689600 + 82800 /\
    generate_token (Ok t) (mkUser (py "a@b.com") 7 (py "h1")) =
    Ok (py "def551ddb040b1737021642a5ec4a3ac").
Proof.
  apply (check_token_accepts_recent _ _ (1735689600 + 82800)).
  vm_compute. reflexivity.
Defined.

Lemma hours_within_23 (t_gen now : Z) :
  0 <= now - t_gen <= 82800 -> 0 <= now / 3600 - t_gen / 3600 <= 23.
Proof.
  intros Hd.
  assert (t_gen / 3600 <= now / 3600) by (apply Z.div_le_mono; lia).
  assert (now / 3600 <= (t_gen + 23 * 3600) / 3600)
    by (apply Z.div_le_mono; lia).
  rewrite Z.div_add in * by lia. lia.
Qed.

(** X5. A token is accepted from the moment it is generated until at least
    23 hours (82800 seconds) later. *)
Theorem check_token_accepts_for_23_hours
    (user : User) (tok : pystr) (t_gen now : Z) :
  generate_token (Ok t_gen) user = Ok tok ->
  0 <= now - t_gen <= 82800 ->
  check_token (Ok now) user tok = true.
Proof.
  intros Hg Hd. apply (check_token_accepts user tok t_gen now Hg).
  now apply hours_within_23.
Qed.

(** Generated one second before the hour ends, presented 23 hours later. *)
Lemma check_token_accepts_for_23_hours_witness :
  check_token (Ok (1735693199 + 82800)) (mkUser (py "a@b.com") 7 (py "h1"))
    (py "def551ddb040b1737021642a5ec4a3ac") = true.
Proof.
  apply (check_token_accepts_for_23_hours _ _ 1735693199).
  - vm_compute. reflexivity.
  - lia.
Defined.

(* ------------------------------------------------------------------ *)
(** ** User records that cannot be encoded *)

Lemma encode_codepoint_outcome (c : codepoint) :
  (scalar c /\ exists b, encode_codepoint c = Ok b) \/
  (~ scalar c /\ encode_codepoint c = Raise UnicodeEncodeError).
Proof.
  unfold encode_codepoint, scalar. cbv zeta.
  repeat match goal with
         | |- context [Z.ltb ?x ?y] => destruct (Z.ltb_spec x y)
         | |- context [Z.leb ?x ?y] => destruct (Z.leb_spec x y)
         end;
    cbn [andb];
    first [ left; split; [lia | eexists; reflexivity]
          | right; split; [lia | reflexivity]
          | exfalso; lia ].
Qed.

Lemma encode_outcome (s : pystr) :
  (Forall scalar s /\ exists b, encode s = Ok b) \/
  (~ Forall scalar s /\ encode s = Raise UnicodeEncodeError).
Proof.
  induction s as [|c s IH]; simpl.
  - left. split; [constructor | eauto].
  - destruct (encode_codepoint_outcome c) as [[Hc [b ->]]|[Hc ->]].
    + destruct IH as [[Hs [bs ->]]|[Hs ->]].
      * left. split; [now constructor | simpl; eauto].
      * right. split; [|reflexivity]. intros Hall. apply Hs.
        now apply Forall_inv_tail in Hall.
    + right. split; [|reflexivity]. intros Hall. apply Hc.
      now apply Forall_inv in Hall.
Qed.

Lemma ascii_scalar (s : pystr) : Forall is_ascii s -> Forall scalar s.
Proof.
  intros Hs. eapply Forall_impl; [exact Hs|].
  unfold is_ascii, scalar. lia.
Qed.

Lemma token_string_scalar (user : User) (t : Z) :
  Forall scalar (token_string user t) <->
  Forall scalar (email user) /\ Forall scalar (password user).
Proof.
  unfold token_string. rewrite !Forall_app.
  assert (Hdash : Forall scalar (py "-")).
  { apply ascii_scalar. constructor; [unfold is_ascii; simpl; lia | constructor]. }
  pose proof (ascii_scalar _ (str_of_int_ascii (id user))).
  pose proof (ascii_scalar _ (str_of_int_ascii t)).
  tauto.
Qed.

(** X6. [generate_token] returns a token exactly for the user records whose
    e-mail address and password hold no surrogate code point; for every other
    record it raises UnicodeEncodeError, at every time. *)
Theorem generate_token_outcome (user : User) (now : Z) :
  (Forall scalar (email user) /\ Forall scalar (password user) /\
   exists tok, generate_token (Ok now) user = Ok tok)
  \/
  (~ (Forall scalar (email user) /\ Forall scalar (password user)) /\
   generate_token (Ok now) user = Raise UnicodeEncodeError).
Proof.
  rewrite generate_token_bucket. unfold digest_token.
  destruct (encode_outcome (token_string user (bucket now)))
    as [[Hs [b ->]]|[Hs ->]]; rewrite token_string_scalar in Hs.
  - left. destruct Hs. repeat split; simpl; eauto.
  - right. split; [exact Hs | reflexivity].
Qed.

(** X7. For such a record, one with a surrogate in the e-mail address or in
    the password, [check_token] refuses every token at every clock. *)
Theorem check_token_unencodable_user
    (clock : result Z) (user : User) (token : pystr) :
  ~ (Forall scalar (email user) /\ Forall scalar (password user)) ->
  check_token clock user token = false.
Proof.
  intros Hbad. destruct clock as [now|e]; [|reflexivity].
  destruct (check_token (Ok now) user token) eqn:Hc; [|reflexivity].
  apply check_token_true in Hc as (k & _ & Hd). exfalso.
  unfold digest_token in Hd.
  destruct (encode_outcome (token_string user (bucket now - k * 3600)))
    as [[Hs _]|[_ Hr]].
  - apply token_string_scalar in Hs. exact (Hbad Hs).
  - rewrite Hr in Hd. discriminate.
Qed.

Lemma check_token_unencodable_user_witness :
  check_token (Ok 1735689600) (mkUser (py "a@b.com") 7 [104; 0xDC00]%N)
    (py "def551ddb040b1737021642a5ec4a3ac") = false.
Proof.
  apply check_token_unencodable_user. intros [_ Hp].
  apply Forall_inv_tail, Forall_inv in Hp. unfold scalar in Hp. lia.
Defined.

(* ------------------------------------------------------------------ *)
(** ** Where one field ends and the next begins *)

Lemma check_hours_same_strings (user user' : User) (token : pystr) (now : Z)
    (hours : list Z) :
  (forall t, token_string user t = token_string user' t) ->
  check_hours user token now hours = check_hours user' token now hours.
Proof.
  intros Hs. induction hours as [|h rest IH]; [reflexivity|].
  now rewrite !check_hours_cons, Hs, IH.
Qed.

(** X8. The token string does not record where a field ends.  The record
    with e-mail [e ++ "-" ++ str(i)], id [j], password [q] and the record with
    e-mail [e], id [i], password [str(j) ++ "-" ++ q] get the same token at
    every time, and [check_token] gives the same answer for both on every
    token. *)
Theorem token_fields_run_together
    (clock : result Z) (e q : pystr) (i j : Z) (token : pystr) :
  let a := mkUser (e ++ py "-" ++ str_of_int i) j q in
  let b := mkUser e i (str_of_int j ++ py "-" ++ q) in
  email a <> email b /\
  generate_token clock a = generate_token clock b /\
  check_token clock a token = check_token clock b token.
Proof.
  intros a b.
  assert (Hs : forall t, token_string a t = token_string b t).
  { intros t. unfold token_string, a, b. simpl. now rewrite <- !app_assoc. }
  split; [|split].
  - simpl. intros Heq. apply (f_equal length) in Heq.
    rewrite length_app in Heq. simpl in Heq. lia.
  - destruct clock as [now|x]; [|reflexivity].
    now rewrite !generate_token_bucket, Hs.
  - destruct clock as [now|x]; [|reflexivity].
    unfold check_token. rewrite !check_token_try_ok.
    now rewrite (check_hours_same_strings a b).
Qed.

(* ------------------------------------------------------------------ *)
(** ** The views, continued *)

Section MoreViewProperties.
Context `{Django}.

Implicit Types (w : world) (request : HttpRequest) (clock : result Z).

(** X9. Viewing and submitting agree on the link.  The GET view never changes
    the world; when it answers with the invalid-link page the POST view, for
    the same link, clock and world, answers with that page too and changes
    nothing, whatever passwords are submitted; and an exception that GET lets
    through, POST lets through as well. *)
Theorem reset_confirm_get_post_agree clock request uidb64 token w :
  fst (reset_confirm_get clock request uidb64 token w) = w /\
  (snd (reset_confirm_get clock request uidb64 token w) = Ok invalid_link ->
   reset_confirm_post clock request uidb64 token w = (w, Ok invalid_link)) /\
  (forall e,
     snd (reset_confirm_get clock request uidb64 token w) = Raise e ->
     reset_confirm_post clock request uidb64 token w = (w, Raise e)).
Proof.
  unfold reset_confirm_get, reset_confirm_get_try, reset_confirm_post,
    reset_confirm_try, view_bind, lift, query, ret.
  destruct (urlsafe_base64_decode uidb64) as [raw|x];
    cbn [mbind result_bind];
    [|destruct (caught_by_confirm x); simpl; repeat split; congruence].
  destruct (force_str raw) as [uid|x];
    [|destruct (caught_by_confirm x); simpl; repeat split; congruence].
  destruct (objects_get_pk (db w) uid) as [user|x];
    [|destruct (caught_by_confirm x); simpl; repeat split; congruence].
  destruct (check_token clock user token); simpl.
  - repeat split; discriminate.
  - repeat split; congruence.
Qed.

(** X10. The reset-request view never touches the user table, and it hands a
    message to the mail sender only after the lookup by e-mail has found a
    user and a token has been generated for that user; in every other case
    the world is as it was. *)
Theorem reset_request_post_sends_only_for_user clock request w :
  db (fst (reset_request_post clock request w)) = db w /\
  (fst (reset_request_post clock request w) = w \/
   exists user token,
     objects_get_email (db w) (data request !! "email") = Ok user /\
     generate_token clock user = Ok token /\
     fst (reset_request_post clock request w) =
     mkWorld (db w)
       (fst (send_mail (mail w)
               (mkEmail reset_subject
                  (reset_message_prefix
                     ++ reset_url request
                          (urlsafe_base64_encode (force_bytes (id user))) token)
                  DEFAULT_FROM_EMAIL [data request !! "email"])))).
Proof.
  unfold reset_request_post, reset_request_try, view_bind, query, lift,
    do_send_mail, ret.
  destruct (objects_get_email (db w) (data request !! "email"))
    as [user|x] eqn:Hget; [|destruct x; simpl; auto].
  destruct (generate_token clock user) as [token|x] eqn:Hgen;
    [|destruct x; simpl; auto].
  cbv zeta.
  split; [|right; exists user, token; split; [reflexivity|split; [exact Hgen|]]];
    destruct (send_mail (mail w) _) as [box [[]|x]]; try destruct x;
    reflexivity.
Qed.

(** X11. A submission that passes every check is saved: with a link that
    resolves to a user and is accepted, two equal passwords of at least 8
    characters and a [set_password] that succeeds, the user with the new
    password is what is saved, and once [save] succeeds the answer is the
    success page. *)
Theorem reset_confirm_post_accepts
    clock request uidb64 token w raw uid user (p : pystr) user' :
  urlsafe_base64_decode uidb64 = Ok raw ->
  force_str raw = Ok uid ->
  objects_get_pk (db w) uid = Ok user ->
  check_token clock user token = true ->
  POST request !! "new_password1" = Some p ->
  POST request !! "new_password2" = Some p ->
  (8 <= length p)%nat ->
  set_password user p = Ok user' ->
  fst (reset_confirm_post clock request uidb64 token w) =
    mkWorld (fst (save (db w) user')) (mail w) /\
  (snd (save (db w) user') = Ok tt ->
   snd (reset_confirm_post clock request uidb64 token w) =
   Ok (Render template_name
         [("validlink", VBool true); ("success", VBool true)])).
Proof.
  intros Hraw Huid Huser Hcheck H1 H2 Hlen Hset.
  unfold reset_confirm_post, reset_confirm_try, view_bind, lift, query, ret,
    do_save.
  rewrite Hraw. cbn [mbind result_bind]. rewrite Huid, Huser, Hcheck, H1, H2.
  assert (Ht : truthy (Some p) = true)
    by (destruct p; [simpl in Hlen; lia | reflexivity]).
  assert (Hl : (len (Some p) <? 8) = false)
    by (apply Z.ltb_ge; unfold len; lia).
  rewrite Ht, Hl, bool_decide_eq_true_2 by reflexivity.
  cbn [negb orb]. change (default [] (Some p)) with p. rewrite Hset.
  destruct (save (db w) user') as [s [[]|x]].
  - split; [reflexivity | intros _; reflexivity].
  - split; [now destruct (caught_by_confirm x) | discriminate].
Qed.

(** X12. The link that the reset-request view mails is accepted by the GET
    view for at least 23 hours: when the identifier in the link decodes back
    and resolves to the same user record, the view shows the form for that
    link at every time from generation to 82800 seconds later. *)
Theorem reset_link_round_trip
    request request' w w' user tok raw uid (t_gen now : Z) :
  objects_get_email (db w) (data request !! "email") = Ok user ->
  generate_token (Ok t_gen) user = Ok tok ->
  let uidb64 := urlsafe_base64_encode (force_bytes (id user)) in
  urlsafe_base64_decode uidb64 = Ok raw ->
  force_str raw = Ok uid ->
  objects_get_pk (db w') uid = Ok user ->
  0 <= now - t_gen <= 82800 ->
  fst (reset_request_post (Ok t_gen) request w) =
    mkWorld (db w)
      (fst (send_mail (mail w)
              (mkEmail reset_subject
                 (reset_message_prefix ++ reset_url request uidb64 tok)
                 DEFAULT_FROM_EMAIL [data request !! "email"]))) /\
  reset_confirm_get (Ok now) request' uidb64 tok w' =
    (w', Ok (valid_form uidb64 tok)).
Proof.
  intros Hget Hgen uidb64 Hraw Huid Hpk Hd. split.
  - unfold reset_request_post, reset_request_try, view_bind, query, lift,
      do_send_mail, ret.
    rewrite Hget, Hgen. cbv zeta. fold uidb64.
    destruct (send_mail (mail w) _) as [box [[]|x]]; try destruct x;
      reflexivity.
  - unfold reset_confirm_get, reset_confirm_get_try, view_bind, lift, query,
      ret.
    rewrite Hraw. cbn [mbind result_bind]. rewrite Huid, Hpk.
    now rewrite (check_token_accepts user tok t_gen now Hgen
                   (hours_within_23 t_gen now Hd)).
Qed.

(** X13. A link issued before the password was changed is dead.  When the
    user it resolves to has the same e-mail address and id but another
    password than the record the token was generated for, the POST view
    answers with the invalid-link page and changes nothing, whatever
    passwords are submitted (for times at or after the epoch, the clock at
    least 23 hours after it, and a truncated digest that tells the old token
    string apart from the 24 candidate strings). *)
Theorem reset_confirm_post_stale_link
    request uidb64 token w raw uid (old new : User) (t_gen now : Z) :
  urlsafe_base64_decode uidb64 = Ok raw ->
  force_str raw = Ok uid ->
  objects_get_pk (db w) uid = Ok new ->
  email new = email old -> id new = id old ->
  password new <> password old ->
  generate_token (Ok t_gen) old = Ok token ->
  0 <= t_gen -> 82800 <= now ->
  (forall k, 0 <= k < 24 ->
     digest_separates (token_string old (bucket t_gen))
                      (token_string new (bucket now - k * 3600))) ->
  reset_confirm_post (Ok now) request uidb64 token w = (w, Ok invalid_link).
Proof.
  intros Hraw Huid Hpk He Hi Hp Hgen Ht Hnow Hsep.
  assert (Hc : check_token (Ok now) new token = false).
  { rewrite generate_token_bucket in Hgen.
    apply (check_token_refuses _ _ _ _ Hgen); [|exact Hsep].
    intros k Hk Heq. apply Hp.
    apply (token_string_password_inj old new
             (bucket t_gen) (bucket now - k * 3600) He Hi); [| |exact Heq].
    - rewrite bucket_div. pose proof (Z.div_pos t_gen 3600). lia.
    - rewrite bucket_div.
      assert (23 <= now / 3600) by (apply Z.div_le_lower_bound; lia). lia. }
  unfold reset_confirm_post, reset_confirm_try, view_bind, lift, query, ret.
  rewrite Hraw. cbn [mbind result_bind]. now rewrite Huid, Hpk, Hc.
Qed.

(** X16. For a user whose e-mail address or password holds a surrogate, the
    reset-request view ends in UnicodeEncodeError, which it does not handle,
    and hands nothing to the mail sender. *)
Theorem reset_request_post_unencodable_user request w user (now : Z) :
  objects_get_email (db w) (data request !! "email") = Ok user ->
  ~ (Forall scalar (email user) /\ Forall scalar (password user)) ->
  reset_request_post (Ok now) request w = (w, Raise UnicodeEncodeError).
Proof.
  intros Hget Hbad.
  assert (Hgen : generate_token (Ok now) user = Raise UnicodeEncodeError).
  { rewrite generate_token_bucket. unfold digest_token.
    destruct (encode_outcome (token_string user (bucket now)))
      as [[Hs _]|[_ ->]]; [|reflexivity].
    apply token_string_scalar in Hs. destruct (Hbad Hs). }
  unfold reset_request_post, reset_request_try, view_bind, query, lift.
  now rewrite Hget, Hgen.
Qed.

End MoreViewProperties.

Section AuthenticationProperties.
Context `{Accounts}.

(** X14. [UserAuthentication.post] never changes the world, and it answers
    200 exactly when the lookup by name finds a user and [check_password]
    accepts the submitted password against that user's stored one; a lookup
    that raises DoesNotExist gives 404 and a refused password 400. *)
Theorem authentication_post_outcome (request : HttpRequest) (w : world) :
  let found := objects_get_name (db w) (data request !! "username") in
  let checked user :=
    check_password (data request !! "password") (password user) in
  fst (authentication_post request w) = w /\
  (snd (authentication_post request w) =
     Ok (Response [("message", py "Authentication successful")] 200) <->
   exists user, found = Ok user /\ checked user = Ok true) /\
  (snd (authentication_post request w) =
     Ok (Response [("error", py "Invalid password")] 400) <->
   exists user, found = Ok user /\ checked user = Ok false) /\
  (found = Raise DoesNotExist ->
   snd (authentication_post request w) =
     Ok (Response [("error", py "User not found")] 404)).
Proof.
  intros found checked.
  unfold authentication_post, authentication_try, view_bind, query, lift, ret.
  fold found. destruct found as [user|x] eqn:Hf.
  - fold (checked user). destruct (checked user) as [[]|x] eqn:Hc.
    + repeat split; try discriminate; eauto.
      intros (u & [= <-] & Hu). congruence.
    + repeat split; try discriminate; eauto.
      intros (u & [= <-] & Hu). congruence.
    + destruct x; simpl; repeat split; try discriminate;
        intros (u & [= <-] & Hu); congruence.
  - destruct x; simpl; repeat split; try discriminate;
      intros (u & Hu & _); discriminate.
Qed.

End AuthenticationProperties.

Section EventProperties.
Context `{Events}.

(** X15. [EventList.delete] always answers: no exception gets out of it.  It
    answers 204 exactly when the event was found and its deletion succeeded;
    and when the lookup raises, the table is left as it was. *)
Theorem event_list_delete_outcome (event_id : option key) (t : event_table) :
  (exists response, snd (event_list_delete event_id t) = Ok response) /\
  (snd (event_list_delete event_id t) = Ok (Response [] 204) <->
   exists event, event_objects_get t event_id = Ok event /\
                 snd (event_delete t event) = Ok tt) /\
  (forall e, event_objects_get t event_id = Raise e ->
             fst (event_list_delete event_id t) = t).
Proof.
  unfold event_list_delete, event_list_delete_try.
  destruct (event_objects_get t event_id) as [event|x].
  - destruct (event_delete t event) as [t' [[]|x]] eqn:Hdel.
    + split; [eauto|]. split; [|discriminate].
      split; [|reflexivity]. intros _. exists event. now rewrite Hdel.
    + assert (Hno : ~ exists ev, Ok event = Ok ev /\
                                 snd (event_delete t ev) = Ok tt).
      { intros (ev & [= <-] & Hd). rewrite Hdel in Hd. discriminate. }
      destruct x; simpl; (split; [eauto|]); (split; [|discriminate]);
        (split; [discriminate | intros Hex; destruct (Hno Hex)]).
  - assert (Hno : ~ exists ev, @Raise Event x = Ok ev /\
                               snd (event_delete t ev) = Ok tt).
    { intros (ev & Hev & _). discriminate. }
    destruct x; simpl; (split; [eauto|]);
      (split; [|intros e _; reflexivity]);
      (split; [discriminate | intros Hex; destruct (Hno Hex)]).
Qed.

End EventProperties.

(* ------------------------------------------------------------------ *)
(** ** More runs of the views *)

(** A link with a wrong token: the page is the invalid-link page for GET,
    and POST answers the same and saves nothing. *)
Lemma reset_confirm_get_post_agree_witness :
  reset_confirm_post (Ok Run.T) (Run.submit "correct horse" "correct horse")
    (py "7") (py "0123") Run.start = (Run.start, Ok invalid_link).
Proof.
  apply (proj1 (proj2 (reset_confirm_get_post_agree (Ok Run.T)
                         (Run.submit "correct horse" "correct horse")
                         (py "7") (py "0123") Run.start))).
  vm_compute. reflexivity.
Defined.

(** A password of exactly 8 characters. *)
Lemma reset_confirm_post_accepts_witness :
  fst (reset_confirm_post (Ok Run.T) (Run.submit "12345678" "12345678")
         (py "7") Run.X Run.start) =
  Run.world_of [mkUser (py "a@b.com") 7 (py "plain$12345678")] [].
Proof.
  refine (proj1 (reset_confirm_post_accepts (Ok Run.T)
                   (Run.submit "12345678" "12345678") (py "7") Run.X Run.start
                   [55] (py "7") Run.alice (py "12345678")
                   (mkUser (py "a@b.com") 7 (py "plain$12345678"))
                   _ _ _ _ _ _ _ _));
    first [vm_compute; reflexivity | simpl; lia].
Defined.

(** The link mailed at T, opened 23 hours later. *)
Lemma reset_link_round_trip_witness :
  reset_confirm_get (Ok (Run.T + 82800)) (Run.submit "" "") (py "7") Run.X
    Run.start = (Run.start, Ok (valid_form (py "7") Run.X)).
Proof.
  refine (proj2 (reset_link_round_trip (Run.ask "a@b.com") (Run.submit "" "")
                   Run.start Run.start Run.alice Run.X [55] (py "7")
                   Run.T (Run.T + 82800) _ _ _ _ _ _));
    first [vm_compute; reflexivity | unfold Run.T; lia].
Defined.

(** The link of the worked example after the password was reset. *)
Lemma reset_confirm_post_stale_link_witness :
  reset_confirm_post (Ok Run.T) (Run.submit "another one" "another one")
    (py "7") Run.X
    (Run.world_of [mkUser (py "a@b.com") 7 (py "plain$correct horse")] []) =
  (Run.world_of [mkUser (py "a@b.com") 7 (py "plain$correct horse")] [],
   Ok invalid_link).
Proof.
  refine (reset_confirm_post_stale_link
            (Run.submit "another one" "another one") (py "7") Run.X
            (Run.world_of [mkUser (py "a@b.com") 7 (py "plain$correct horse")] [])
            [55] (py "7") Run.alice
            (mkUser (py "a@b.com") 7 (py "plain$correct horse"))
            Run.T Run.T _ _ _ _ _ _ _ _ _ _).
  - reflexivity.
  - reflexivity.
  - vm_compute. reflexivity.
  - reflexivity.
  - reflexivity.
  - discriminate.
  - vm_compute. reflexivity.
  - unfold Run.T. lia.
  - unfold Run.T. lia.
  - intros k Hk. first_24 k Hk; digests_differ.
Defined.

(** The address of the only user holds a lone surrogate. *)
Lemma reset_request_post_unencodable_user_witness :
  reset_request_post (Ok Run.T)
    (mkRequest (py "https") (py "example.com")
       {[ "email" := [97; 0xD800]%N ]} ∅)
    (Run.world_of [mkUser [97; 0xD800]%N 7 (py "h1")] []) =
  (Run.world_of [mkUser [97; 0xD800]%N 7 (py "h1")] [],
   Raise UnicodeEncodeError).
Proof.
  refine (reset_request_post_unencodable_user _ _
            (mkUser [97; 0xD800]%N 7 (py "h1")) Run.T _ _).
  - vm_compute. reflexivity.
  - intros [He _]. apply Forall_inv_tail, Forall_inv in He.
    unfold scalar in He. lia.
Defined.
